(** * Vibe Music API: a shallow embedding of [main.py] and [schemas.py]

    The handlers of [main.py] are embedded as functions over an explicit
    environment (the store handle [db] and a log of the operations sent to
    the store).  Python strings are sequences of code points; a Rocq
    [string] stands for a Python [str] whose code points are below 256, one
    [ascii] per code point. *)

From Stdlib Require Import Strings.String Strings.Ascii NArith ZArith Bool
  Numbers.DecimalString.
From stdpp Require Import base option list gmap strings.

Local Open Scope string_scope.

(** ** Python string operations used by the handlers *)

Module PyStr.

Definition code (c : ascii) : N := N_of_ascii c.

Definition between (lo hi n : N) : bool := ((lo <=? n) && (n <=? hi))%N.

(** [str.isspace] on one code point below 256: TAB..CR, FS..US, SPACE,
    NEL and NBSP. *)
Definition isspace (c : ascii) : bool :=
  let n := code c in
  between 9 13 n || between 28 32 n || (n =? 133)%N || (n =? 160)%N.

(** [str.lower] on one code point below 256: A..Z and the Latin-1 capitals
    (U+00C0..U+00DE without the multiplication sign U+00D7) move up by 32. *)
Definition lower_char (c : ascii) : ascii :=
  let n := code c in
  if between 65 90 n || (between 192 222 n && negb (n =? 215)%N)
  then ascii_of_N (n + 32) else c.

Fixpoint lower (s : string) : string :=
  match s with
  | EmptyString => EmptyString
  | String c r => String (lower_char c) (lower r)
  end.

Fixpoint lstrip (s : string) : string :=
  match s with
  | EmptyString => EmptyString
  | String c r => if isspace c then lstrip r else s
  end.

Fixpoint rstrip (s : string) : string :=
  match s with
  | EmptyString => EmptyString
  | String c r =>
      match rstrip r with
      | EmptyString => if isspace c then EmptyString else String c EmptyString
      | r' => String c r'
      end
  end.

(** [s.strip()] *)
Definition strip (s : string) : string := rstrip (lstrip s).

(** [k in s] *)
Fixpoint contains (k s : string) : bool :=
  String.prefix k s ||
  match s with
  | EmptyString => false
  | String _ r => contains k r
  end.

(** One left-to-right pass of [s.replace(old, "")] for a non-empty [old]:
    [skip] counts the characters of a match still to be dropped. *)
Fixpoint remove_pass (old s : string) (skip : nat) : string :=
  match s with
  | EmptyString => EmptyString
  | String c r =>
      match skip with
      | S k => remove_pass old r k
      | O =>
          if String.prefix old s
          then remove_pass old r (String.length old - 1)
          else String c (remove_pass old r 0)
      end
  end.

(** [s.replace(old, "")]: every non-overlapping occurrence of [old],
    scanning from the left, is dropped; an empty [old] changes nothing. *)
Definition remove (old s : string) : string :=
  match old with
  | EmptyString => s
  | _ => remove_pass old s 0
  end.

(** [any(k in t for k in ks)] *)
Definition any_in (ks : list string) (t : string) : bool :=
  existsb (fun k => contains k t) ks.

(** [bool(s)] *)
Definition truthy (s : string) : bool :=
  match s with EmptyString => false | _ => true end.

(** [str(n)] for a natural number. *)
Definition of_nat (n : nat) : string := NilZero.string_of_uint (Nat.to_uint n).

(** [str(z)] for an integer. *)
Definition of_Z (z : Z) : string := NilZero.string_of_int (Z.to_int z).

(** Every character is white space (so is the empty string's). *)
Fixpoint all_space (s : string) : bool :=
  match s with
  | EmptyString => true
  | String c r => isspace c && all_space r
  end.

(** The string begins with a character that is not white space. *)
Definition starts_solid (k : string) : bool :=
  match k with
  | EmptyString => false
  | String c _ => negb (isspace c)
  end.

(** The string ends with a character that is not white space. *)
Fixpoint ends_solid (k : string) : bool :=
  match k with
  | EmptyString => false
  | String c EmptyString => negb (isspace c)
  | String _ r => ends_solid r
  end.

End PyStr.

(** ** Regular expressions of the store ([$regex] with [$options])

    The store matches [$regex] patterns with PCRE.  The fragment embedded
    here has literal characters, the dot and the two anchors.  A pattern
    with any other metacharacter is outside the fragment: [compile] has no
    items for it, whether PCRE would read it (a star, a class, a group) or
    refuse it, and the properties of the filters are stated for patterns
    inside the fragment only. *)

Module Regex.

Inductive item : Type :=
| Lit (c : ascii)      (* a literal character *)
| AnyChar              (* [.]: any character but a line feed *)
| Bol                  (* [^]: start of the subject *)
| Eol.                 (* [$]: end of the subject, or before a final line feed *)

Definition newline : ascii := ascii_of_N 10.

(** The characters PCRE reads as syntax, with the closing brackets. *)
Definition metachars : string := "\^$.[]|()?*+{}".

Fixpoint mem (c : ascii) (s : string) : bool :=
  match s with
  | EmptyString => false
  | String x r => Ascii.eqb c x || mem c r
  end.

Definition is_meta (c : ascii) : bool := mem c metachars.

(** A string free of metacharacters. *)
Fixpoint plain (s : string) : bool :=
  match s with
  | EmptyString => true
  | String c r => negb (is_meta c) && plain r
  end.

Definition compile_char (c : ascii) : option item :=
  if Ascii.eqb c "." then Some AnyChar
  else if Ascii.eqb c "^" then Some Bol
  else if Ascii.eqb c "$" then Some Eol
  else if is_meta c then None
  else Some (Lit c).

Fixpoint compile (p : string) : option (list item) :=
  match p with
  | EmptyString => Some []
  | String c r =>
      match compile_char c, compile r with
      | Some i, Some its => Some (i :: its)
      | _, _ => None
      end
  end.

(** Option [i] makes the match caseless. *)
Definition caseless (options : string) : bool := mem "i" options.

Definition char_eq (ci : bool) (c x : ascii) : bool :=
  if ci then Ascii.eqb (PyStr.lower_char c) (PyStr.lower_char x)
  else Ascii.eqb c x.

Definition at_end (s : string) : bool :=
  match s with
  | EmptyString => true
  | String c EmptyString => Ascii.eqb c newline
  | _ => false
  end.

(** Does the item sequence match at this position ([at_start]: the
    position is the start of the subject)? *)
Fixpoint match_here (ci : bool) (its : list item) (at_start : bool)
    (s : string) : bool :=
  match its with
  | [] => true
  | Bol :: r => at_start && match_here ci r at_start s
  | Eol :: r => at_end s && match_here ci r at_start s
  | Lit c :: r =>
      match s with
      | String x s' => char_eq ci c x && match_here ci r false s'
      | EmptyString => false
      end
  | AnyChar :: r =>
      match s with
      | String x s' => negb (Ascii.eqb x newline) && match_here ci r false s'
      | EmptyString => false
      end
  end.

(** Unanchored search: a match at some position of the subject. *)
Fixpoint search_from (ci : bool) (its : list item) (at_start : bool)
    (s : string) : bool :=
  match_here ci its at_start s ||
  match s with
  | EmptyString => false
  | String _ s' => search_from ci its false s'
  end.

Definition search (ci : bool) (its : list item) (s : string) : bool :=
  search_from ci its true s.

(** [pattern] with [options] against [subject]; [None] when the pattern
    does not compile. *)
Definition test (pattern options subject : string) : option bool :=
  match compile pattern with
  | Some its => Some (search (caseless options) its subject)
  | None => None
  end.

End Regex.

(** ** Documents

    The schemas of [schemas.py] are flat: a field holds null, an integer, a
    string, an identifier, or (for [song_ids]) an array of such values. *)

Inductive scalar : Type :=
| SNull
| SInt (z : Z)
| SStr (s : string)
| SOid (hex : string).   (* an ObjectId, by the lowercase hex digits of its bytes *)

Inductive value : Type :=
| Sc (v : scalar)
| Arr (l : list scalar).

#[global] Instance scalar_eq_dec : EqDecision scalar.
Proof. solve_decision. Defined.

#[global] Instance value_eq_dec : EqDecision value.
Proof. solve_decision. Defined.

(** A Python [dict] with string keys. *)
Abbreviation dict := (gmap string value).

(** What the BSON encoder of the client takes: integers of at most 8
    bytes. *)
Definition int64 (z : Z) : bool :=
  (-9223372036854775808 <=? z)%Z && (z <=? 9223372036854775807)%Z.

Definition scalar_encodable (v : scalar) : bool :=
  match v with
  | SInt z => int64 z
  | _ => true
  end.

Definition value_encodable (v : value) : bool :=
  match v with
  | Sc x => scalar_encodable x
  | Arr l => forallb scalar_encodable l
  end.

Definition encodable (d : dict) : bool :=
  forallb (fun kv => value_encodable kv.2) (map_to_list d).

(** A stored document: the store gives every document an [_id], which is
    never an array. *)
Record document : Type := { doc_id : scalar; doc_fields : dict }.

#[global] Instance document_eq_dec : EqDecision document.
Proof. solve_decision. Defined.

(** The [dict] a cursor yields for a stored document. *)
Definition to_dict (d : document) : dict :=
  <["_id" := Sc (doc_id d)]> (doc_fields d).

Module PyRepr.

Definition hex_digit (n : N) : ascii :=
  if (n <? 10)%N then ascii_of_N (48 + n) else ascii_of_N (87 + n).

(** The last [k] hex digits of [x], most significant first, before [acc]. *)
Fixpoint hex_acc (k : nat) (x : N) (acc : string) : string :=
  match k with
  | O => acc
  | S k' => hex_acc k' (x / 16)%N (String (hex_digit (x mod 16)%N) acc)
  end.

Definition squote : ascii := ascii_of_N 39.
Definition dquote : ascii := ascii_of_N 34.
Definition backslash : ascii := ascii_of_N 92.

(** [str.isprintable] on one code point below 256. *)
Definition printable (c : ascii) : bool :=
  let n := PyStr.code c in
  PyStr.between 32 126 n || (PyStr.between 161 255 n && negb (n =? 173)%N).

Definition escape_char (quote c : ascii) : string :=
  let n := PyStr.code c in
  if Ascii.eqb c quote || Ascii.eqb c backslash
  then String backslash (String c EmptyString)
  else if (n =? 9)%N then String backslash "t"
  else if (n =? 10)%N then String backslash "n"
  else if (n =? 13)%N then String backslash "r"
  else if printable c then String c EmptyString
  else String backslash (String "x" (hex_acc 2 n EmptyString)).

Fixpoint escape (quote : ascii) (s : string) : string :=
  match s with
  | EmptyString => EmptyString
  | String c r => escape_char quote c ++ escape quote r
  end.

(** [repr(s)] of a string: single quotes, unless the string has a single
    quote and no double quote. *)
Definition repr_str (s : string) : string :=
  let quote :=
    if Regex.mem squote s && negb (Regex.mem dquote s) then dquote else squote in
  String quote (escape quote s ++ String quote EmptyString).

Definition repr_scalar (v : scalar) : string :=
  match v with
  | SNull => "None"
  | SInt z => PyStr.of_Z z
  | SStr s => repr_str s
  | SOid h => "ObjectId('" ++ h ++ "')"
  end.

Fixpoint join (sep : string) (l : list string) : string :=
  match l with
  | [] => EmptyString
  | [x] => x
  | x :: r => x ++ sep ++ join sep r
  end.

Definition str_scalar (v : scalar) : string :=
  match v with
  | SNull => "None"
  | SInt z => PyStr.of_Z z
  | SStr s => s
  | SOid h => h
  end.

(** [str(v)] *)
Definition py_str (v : value) : string :=
  match v with
  | Sc x => str_scalar x
  | Arr l => "[" ++ join ", " (map repr_scalar l) ++ "]"
  end.

End PyRepr.

(** [ObjectId(s)] for a string [s]: a string of 24 characters that
    [bytes.fromhex] reads (two hex digits per byte, ASCII white space
    skipped before a byte), or [InvalidId]. *)
Definition is_hex (c : ascii) : bool :=
  let n := PyStr.code c in
  PyStr.between 48 57 n || PyStr.between 65 70 n || PyStr.between 97 102 n.

Fixpoint all_hex (s : string) : bool :=
  match s with
  | EmptyString => true
  | String c r => is_hex c && all_hex r
  end.

(** The white space that [bytes.fromhex] skips: TAB..CR and SPACE. *)
Definition hex_space (c : ascii) : bool :=
  let n := PyStr.code c in
  PyStr.between 9 13 n || (n =? 32)%N.

(** [bytes.fromhex(s)], as the lowercase hex digits of the bytes read. *)
Fixpoint fromhex (s : string) : option string :=
  match s with
  | EmptyString => Some EmptyString
  | String c r =>
      if hex_space c then fromhex r
      else if is_hex c then
        match r with
        | String c2 r2 =>
            if is_hex c2
            then option_map
                   (fun h => String (PyStr.lower_char c) (String (PyStr.lower_char c2) h))
                   (fromhex r2)
            else None
        | EmptyString => None
        end
      else None
  end.

Definition ObjectId (s : string) : option scalar :=
  if (String.length s =? 24)%nat then option_map SOid (fromhex s) else None.

(** ** Queries and updates of the store *)

(** The condition a query puts on one field. *)
Inductive cond : Type :=
| CIs (v : scalar)                      (* [{field: v}] *)
| CRegex (pattern options : string)     (* [{field: {"$regex": p, "$options": o}}] *)
| CType (t : string)                    (* [{field: {"$type": t}}] *)
| CEq (x : option dict).                (* [{field: {"$eq": x}}], [x] being [None] or a dict *)

(** One key of a query document. *)
Inductive clause : Type :=
| KField (field : string) (c : cond)
| KOr (alts : list (string * cond)).    (* ["$or": [{f1: c1}, {f2: c2}, ...]] *)

(** A query document: all its keys must hold. *)
Definition filter : Type := list clause.

Inductive update : Type :=
| UEmpty                                       (* [{}] *)
| UAddToSet (field : string) (v : scalar).     (* [{"$addToSet": {field: v}}] *)

Module Query.

Definition cond_ok (c : cond) : bool :=
  match c with
  | CRegex p _ => bool_decide (is_Some (Regex.compile p))
  | _ => true
  end.

Definition clause_ok (k : clause) : bool :=
  match k with
  | KField _ c => cond_ok c
  | KOr alts => forallb (fun a => cond_ok a.2) alts
  end.

(** The server parses a query before it runs it: a pattern that does not
    compile fails the whole operation.  A pattern outside the embedded
    fragment is treated the same way; no property below rests on it. *)
Definition filter_ok (f : filter) : bool := forallb clause_ok f.

Definition type_name (v : scalar) : string :=
  match v with
  | SNull => "null"
  | SInt z => if bool_decide (-2147483648 <= z <= 2147483647)%Z then "int" else "long"
  | SStr _ => "string"
  | SOid _ => "objectId"
  end.

Definition regex_scalar (p o : string) (v : scalar) : bool :=
  match v with
  | SStr s => bool_decide (Regex.test p o s = Some true)
  | _ => false
  end.

(** A condition on the value of a field ([None]: the field is missing).
    A condition on an array holds when it holds for an element. *)
Definition cond_holds (c : cond) (x : option value) : bool :=
  match c, x with
  | CIs v, Some (Sc y) => bool_decide (y = v)
  | CIs v, Some (Arr l) => bool_decide (v ∈ l)
  | CIs v, None => bool_decide (v = SNull)
  | CRegex p o, Some (Sc y) => regex_scalar p o y
  | CRegex p o, Some (Arr l) => existsb (regex_scalar p o) l
  | CRegex _ _, None => false
  | CType t, Some (Sc y) => bool_decide (type_name y = t)
  | CType t, Some (Arr l) =>
      bool_decide (t = "array") || existsb (fun y => bool_decide (type_name y = t)) l
  | CType _, None => false
  | CEq None, Some (Sc y) => bool_decide (y = SNull)
  | CEq None, Some (Arr l) => bool_decide (SNull ∈ l)
  | CEq None, None => true
  | CEq (Some _), _ => false      (* no field of a flat document is a document *)
  end.

Definition clause_holds (k : clause) (d : dict) : bool :=
  match k with
  | KField f c => cond_holds c (d !! f)
  | KOr alts => existsb (fun a => cond_holds a.2 (d !! a.1)) alts
  end.

Definition holds (f : filter) (d : dict) : bool :=
  forallb (fun k => clause_holds k d) f.

Definition matches (f : filter) (d : document) : bool := holds f (to_dict d).

(** [$addToSet] on one document: a missing field becomes a one-element
    array, an array gains the value unless it has it, anything else is a
    write error.  The empty update document, when it reaches the server,
    is a replacement by the empty document. *)
Definition apply_update (u : update) (d : document) : option document :=
  match u with
  | UEmpty => Some {| doc_id := doc_id d; doc_fields := ∅ |}
  | UAddToSet f v =>
      match doc_fields d !! f with
      | None =>
          Some {| doc_id := doc_id d; doc_fields := <[f := Arr [v]]> (doc_fields d) |}
      | Some (Arr l) =>
          if bool_decide (v ∈ l) then Some d
          else Some {| doc_id := doc_id d;
                       doc_fields := <[f := Arr (l ++ [v])]> (doc_fields d) |}
      | Some (Sc _) => None
      end
  end.

(** Update the first document the filter matches, if any. *)
Fixpoint update_first (f : filter) (u : update) (ds : list document)
    : option (list document) :=
  match ds with
  | [] => Some []
  | d :: r =>
      if matches f d
      then d' ← apply_update u d; Some (d' :: r)
      else r' ← update_first f u r; Some (d :: r')
  end.

End Query.

(** ** The store, its client and the handlers' environment *)

(** The database: collections by name, and the supply of fresh
    identifiers. *)
Record store : Type := { colls : gmap string (list document); next_oid : N }.

(** [db[name]]: a collection never written is empty. *)
Definition coll (st : store) (name : string) : list document :=
  default [] (colls st !! name).

Definition set_coll (st : store) (name : string) (ds : list document) : store :=
  {| colls := <[name := ds]> (colls st); next_oid := next_oid st |}.

(** The calls made on the store handle. *)
Inductive op : Type :=
| OpFind (c : string) (f : filter) (limit : nat)
| OpFindOne (c : string) (f : filter)
| OpCount (c : string)
| OpInsert (c : string) (d : dict)
| OpUpdate (c : string) (f : filter) (u : update).

(** The environment of a request: the client library's answer to an empty
    update document ([Some msg]: it raises [msg] before anything is sent;
    [None]: it sends the update), the message with which the gateway of
    [database.py] fails when the handle is unset (that module is not among
    the sources, so its text is left open), the module-level handle [db]
    ([None] when the store is not configured) and the log of calls. *)
Record env : Type := {
  empty_update_error : option string;
  gateway_unset : string;
  db : option store;
  oplog : list op
}.

Definition log (o : op) (e : env) : env :=
  {| empty_update_error := empty_update_error e; gateway_unset := gateway_unset e;
     db := db e; oplog := oplog e ++ [o] |}.

Definition put (st : store) (e : env) : env :=
  {| empty_update_error := empty_update_error e; gateway_unset := gateway_unset e;
     db := Some st; oplog := oplog e |}.

(** PyMongo: [update_one] raises [ValueError] on an empty update. *)
Definition pymongo (d : option store) : env :=
  {| empty_update_error := Some "update cannot be empty";
     gateway_unset := "store handle is unset"; db := d; oplog := [] |}.

(** A client that sends every update document to the server. *)
Definition lenient (d : option store) : env :=
  {| empty_update_error := None;
     gateway_unset := "store handle is unset"; db := d; oplog := [] |}.

Inductive outcome (A : Type) : Type :=
| Return (a : A)
| Raise (msg : string).
Arguments Return {A} a.
Arguments Raise {A} msg.

(** A computation that reads and writes the environment and may raise; what
    it wrote before raising stays written. *)
Definition M (A : Type) : Type := env -> outcome A * env.

Definition ret {A} (a : A) : M A := fun e => (Return a, e).
Definition raise {A} (msg : string) : M A := fun e => (Raise msg, e).
Definition bind {A B} (m : M A) (k : A -> M B) : M B :=
  fun e => match m e with
           | (Return a, e') => k a e'
           | (Raise msg, e') => (Raise msg, e')
           end.
(** [try: m  except Exception: h] *)
Definition try_except {A} (m : M A) (h : M A) : M A :=
  fun e => match m e with
           | (Raise _, e') => h e'
           | r => r
           end.

Notation "'let*' x ':=' m 'in' k" := (bind m (fun x => k))
  (at level 10, x name, m at level 100, k at level 200).
Notation "m ';;' k" := (bind m (fun _ => k))
  (at level 100, k at level 200, right associativity).

Module Client.

(** The store behind the handle; using an unset handle is a [TypeError]. *)
Definition the_store : M store :=
  fun e => match db e with
           | Some st => (Return st, e)
           | None => (Raise "'NoneType' object is not subscriptable", e)
           end.

(** The server's complaint about a pattern it cannot compile. *)
Definition no_regex : string := "Regular expression is invalid".

(** [db[c].find(f)], read up to [limit] documents. *)
Definition find (c : string) (f : filter) (limit : nat) : M (list dict) :=
  fun e =>
    let e := log (OpFind c f limit) e in
    (let* st := the_store in
     if Query.filter_ok f
     then ret (to_dict <$> take limit (List.filter (Query.matches f) (coll st c)))
     else raise no_regex) e.

(** [db[c].find_one(f)] *)
Definition find_one (c : string) (f : filter) : M (option dict) :=
  fun e =>
    let e := log (OpFindOne c f) e in
    (let* st := the_store in
     if Query.filter_ok f
     then ret (to_dict <$> head (List.filter (Query.matches f) (coll st c)))
     else raise no_regex) e.

(** [db[c].count_documents({})] *)
Definition count_documents (c : string) : M nat :=
  fun e =>
    let e := log (OpCount c) e in
    (let* st := the_store in ret (length (coll st c))) e.

(** [db[c].insert_one(d)]: the client encodes the document, which fails
    on an integer beyond 8 bytes (with the text of the client's C encoder;
    no property rests on it); a document without [_id] gets a fresh
    identifier from the store; a given [_id] must be new and no array. *)
Definition insert_one (c : string) (d : dict) : M scalar :=
  fun e =>
    let e := log (OpInsert c d) e in
    (let* st := the_store in
     let add (i : scalar) (next : N) : M scalar :=
       let doc := {| doc_id := i; doc_fields := delete "_id" d |} in
       fun e' =>
         (Return i,
          put {| colls := <[c := (coll st c ++ [doc])%list]> (colls st);
                 next_oid := next |} e') in
     if negb (encodable d) then raise "MongoDB can only handle up to 8-byte ints"
     else
     match d !! "_id" with
     | None =>
         add (SOid (PyRepr.hex_acc 24 (next_oid st) EmptyString))
             (N.succ (next_oid st))
     | Some (Sc i) =>
         if bool_decide (i ∈ doc_id <$> coll st c)
         then raise "E11000 duplicate key error"
         else add i (next_oid st)
     | Some (Arr _) => raise "The '_id' value cannot be of type array"
     end) e.

(** [db[c].update_one(f, u)]: the client checks the update document, the
    server parses the query, then the first match is updated; without a
    match, or when the update changes nothing, the store stays as it is. *)
Definition update_one (c : string) (f : filter) (u : update) : M unit :=
  fun e =>
    let e := log (OpUpdate c f u) e in
    match u, empty_update_error e with
    | UEmpty, Some msg => (Raise msg, e)
    | _, _ =>
        (let* st := the_store in
         if Query.filter_ok f
         then match Query.update_first f u (coll st c) with
              | Some ds =>
                  fun e' =>
                    (Return tt,
                     if bool_decide (ds = coll st c) then e'
                     else put (set_coll st c ds) e')
              | None => raise "Cannot apply $addToSet to non-array field"
              end
         else raise no_regex) e
    end.

End Client.

(** Modelled from the spec: [get_documents] of [database.py], which is not
    among the sources.  The gateway executes a filtered read on one
    collection, bounded by [limit], and fails, with a message of its own,
    when the store handle is unset. *)
Definition get_documents (c : string) (f : filter) (limit : nat) : M (list dict) :=
  fun e => match db e with
           | None => (Raise (gateway_unset e), e)
           | Some _ => Client.find c f limit e
           end.

(** Modelled from the spec: [create_document] of [database.py], which is not
    among the sources.  The gateway inserts the record into one collection
    and returns the identifier the store assigned, as a string; it fails,
    with a message of its own, when the store handle is unset. *)
Definition create_document (c : string) (d : dict) : M string :=
  fun e => match db e with
           | None => (Raise (gateway_unset e), e)
           | Some _ => (let* i := Client.insert_one c d in
                        ret (PyRepr.str_scalar i)) e
           end.

(** ** The schemas of [schemas.py] *)

Definition opt_str (o : option string) : value :=
  match o with Some s => Sc (SStr s) | None => Sc SNull end.

Definition opt_int (o : option Z) : value :=
  match o with Some z => Sc (SInt z) | None => Sc SNull end.

Module Song.
Record t : Type := {
  title : string;
  artist : string;
  album : option string;
  cover_url : option string;
  audio_url : option string;
  duration_sec : option Z;
  genre : option string
}.

Definition model_dump (s : t) : dict :=
  <["title" := Sc (SStr (title s))]> (
  <["artist" := Sc (SStr (artist s))]> (
  <["album" := opt_str (album s)]> (
  <["cover_url" := opt_str (cover_url s)]> (
  <["audio_url" := opt_str (audio_url s)]> (
  <["duration_sec" := opt_int (duration_sec s)]> (
  <["genre" := opt_str (genre s)]> ∅)))))).
End Song.

Module Playlist.
Record t : Type := {
  name : string;
  description : option string;
  song_ids : list string
}.

Definition model_dump (p : t) : dict :=
  <["name" := Sc (SStr (name p))]> (
  <["description" := opt_str (description p)]> (
  <["song_ids" := Arr (SStr <$> song_ids p)]> ∅)).
End Playlist.

Module Channel.
Record t : Type := {
  name : string;
  description : option string;
  stream_url : string;
  genre : option string
}.

Definition model_dump (c : t) : dict :=
  <["name" := Sc (SStr (name c))]> (
  <["description" := opt_str (description c)]> (
  <["stream_url" := Sc (SStr (stream_url c))]> (
  <["genre" := opt_str (genre c)]> ∅))).
End Channel.

(** ** The handlers of [main.py] *)

(** The answer of a handler whose body is wrapped in
    [try ... except Exception as e: raise HTTPException(500, str(e))]. *)
Inductive http (A : Type) : Type :=
| Ok200 (body : A)
| Err500 (detail : string).
Arguments Ok200 {A} body.
Arguments Err500 {A} detail.

Definition guarded {A} (m : M A) : env -> http A * env :=
  fun e => match m e with
           | (Return a, e') => (Ok200 a, e')
           | (Raise msg, e') => (Err500 msg, e')
           end.

(** [if "_id" in d: d["id"] = str(d["_id"]); del d["_id"]] *)
Definition normalize_id (d : dict) : dict :=
  match d !! "_id" with
  | Some v => delete "_id" (<["id" := Sc (SStr (PyRepr.py_str v))]> d)
  | None => d
  end.

(** [{"$or": [{f1: {"$regex": q, "$options": "i"}}, {f2: ...}]}] *)
Definition either_field (f1 f2 q : string) : clause :=
  KOr [(f1, CRegex q "i"); (f2, CRegex q "i")].

(** [{"$regex": f"^{genre}$", "$options": "i"}] on [genre] *)
Definition genre_clause (genre : string) : clause :=
  KField "genre" (CRegex ("^" ++ genre ++ "$") "i").

Definition when_given (o : option string) (k : string -> clause) : filter :=
  match o with
  | Some s => if PyStr.truthy s then [k s] else []
  | None => []
  end.

(** [filter_q] of [list_songs] *)
Definition songs_filter (query genre : option string) : filter :=
  (when_given query (either_field "title" "artist") ++ when_given genre genre_clause)%list.

(** [filter_q] of [list_channels] *)
Definition channels_filter (genre : option string) : filter :=
  when_given genre genre_clause.

(** [GET /api/songs] *)
Definition list_songs (query genre : option string) (limit : nat)
    : env -> http (list dict) * env :=
  guarded (
    let* docs := get_documents "song" (songs_filter query genre) limit in
    ret (normalize_id <$> docs)).

(** [GET /api/playlists] *)
Definition list_playlists (limit : nat) : env -> http (list dict) * env :=
  guarded (
    let* docs := get_documents "playlist" [] limit in
    ret (normalize_id <$> docs)).

(** [GET /api/channels] *)
Definition list_channels (genre : option string) (limit : nat)
    : env -> http (list dict) * env :=
  guarded (
    let* docs := get_documents "channel" (channels_filter genre) limit in
    ret (normalize_id <$> docs)).

(** The body of [POST /api/playlists/add]. *)
Record PlaylistAddSong : Type := { playlist_id : string; song_id : string }.

(** The query of line 102: the dict display names [_id] twice, so the
    second condition is the one kept. *)
Definition any_object_id : filter := [KField "_id" (CType "objectId")].

Definition add_to_song_ids (s : string) : update := UAddToSet "song_ids" (SStr s).

(** Lines 104 to 110: the playlist is looked up by [ObjectId]; when the
    identifier is no [ObjectId], or the update raises, by its [id] field. *)
Definition lookup_and_add (payload : PlaylistAddSong) : M unit :=
  try_except
    (match ObjectId (playlist_id payload) with
     | Some oid =>
         Client.update_one "playlist" [KField "_id" (CIs oid)]
           (add_to_song_ids (song_id payload))
     | None => raise "InvalidId"
     end)
    (Client.update_one "playlist" [KField "id" (CIs (SStr (playlist_id payload)))]
       (add_to_song_ids (song_id payload))).

(** [if db is None: raise Exception("Database not available")] *)
Definition require_db : M unit :=
  fun e => match db e with
           | None => (Raise "Database not available", e)
           | Some _ => (Return tt, e)
           end.

(** [POST /api/playlists/add] *)
Definition add_song_to_playlist (payload : PlaylistAddSong)
    : env -> http bool * env :=
  guarded (
    require_db ;;
    let* found := Client.find_one "playlist" any_object_id in
    Client.update_one "playlist" [KField "_id" (CEq found)] UEmpty ;;
    lookup_and_add payload ;;
    ret true).

(** [defaults] of [seed_channels] *)
Definition defaults : list Channel.t := [
  {| Channel.name := "Lofi Beats FM";
     Channel.description := Some "Chill lofi for focus";
     Channel.stream_url := "https://streams.ilovemusic.de/iloveradio9.mp3";
     Channel.genre := Some "lofi" |};
  {| Channel.name := "Classic Rock FM";
     Channel.description := Some "Rock anthems 24/7";
     Channel.stream_url := "https://stream.revma.ihrhls.com/zc1469";
     Channel.genre := Some "rock" |};
  {| Channel.name := "Jazz Lounge";
     Channel.description := Some "Smooth jazz and lounge";
     Channel.stream_url := "https://us4.internet-radio.com/proxy/club107?mp=/stream";
     Channel.genre := Some "jazz" |}
].

(** [for x in xs: body(x)] *)
Fixpoint for_each {A B} (xs : list A) (body : A -> M B) : M unit :=
  match xs with
  | [] => ret tt
  | x :: r => body x ;; for_each r body
  end.

(** [POST /api/channels/seed] *)
Definition seed_channels : env -> http string * env :=
  guarded (
    require_db ;;
    let* n := Client.count_documents "channel" in
    if (0 <? n)%nat then ret "Channels already seeded"
    else
      for_each defaults (fun ch => create_document "channel" (Channel.model_dump ch)) ;;
      ret "Seeded default channels").

(** The body of the answer of [POST /api/ai/command]. *)
Record reply : Type := {
  action : string;
  items : option (list dict);
  message : string
}.

Definition channel_keywords : list string :=
  ["play channel"; "open channel"; "play radio"; "open radio"; "fm"].

Definition song_keywords : list string :=
  ["play song"; "find song"; "play"; "find"; "search"].

(** [t.replace("play", "").replace("open", "")...strip()] *)
Definition channel_keyword (t : string) : string :=
  PyStr.strip
    (PyStr.remove "fm" (PyStr.remove "radio" (PyStr.remove "channel"
      (PyStr.remove "open" (PyStr.remove "play" t))))).

(** [for k in [...]: keywords = keywords.replace(k, "")], then [strip()] *)
Definition song_query (t : string) : string :=
  PyStr.strip
    (fold_left (fun keywords k => PyStr.remove k keywords)
       ["play song"; "find song"; "search song"; "search"; "play"] t).

(** [f] of [ai_command]: empty, or the search phrase in either field. *)
Definition phrase_filter (f1 f2 phrase : string) : filter :=
  if PyStr.truthy phrase then [either_field f1 f2 phrase] else [].

(** [POST /api/ai/command]; the handler catches nothing, so what the gateway
    raises leaves it. *)
Definition ai_command (transcript : string) : M reply :=
  let t := PyStr.strip (PyStr.lower transcript) in
  if negb (PyStr.truthy t)
  then ret {| action := "none"; items := None; message := "I didn't catch that." |}
  else if PyStr.any_in channel_keywords t
  then
    let keyword := channel_keyword t in
    let* docs := get_documents "channel" (phrase_filter "name" "genre" keyword) 5 in
    let items := normalize_id <$> docs in
    ret {| action := "play_channel"; items := Some items;
           message := "Found " ++ PyStr.of_nat (length items) ++ " channel(s)" |}
  else if PyStr.any_in song_keywords t
  then
    let query := song_query t in
    let* docs := get_documents "song" (phrase_filter "title" "artist" query) 10 in
    let items := normalize_id <$> docs in
    ret {| action := "play_song"; items := Some items;
           message := "Found " ++ PyStr.of_nat (length items) ++ " song(s)" |}
  else
    ret {| action := "none"; items := None;
           message := "Try: 'Play channel jazz' or 'Find song by Coldplay'" |}.

(** ** Vocabulary of the statements, and sample data *)

(** What a filtered read of collection [c] yields. *)
Definition found (st : store) (c : string) (f : filter) (limit : nat) : list dict :=
  to_dict <$> take limit (List.filter (Query.matches f) (coll st c)).

(** What it means for [POST /api/ai/command] to answer a transcript by a
    song search for phrase [q]: with the store handle set, the one call made
    is a read of the song collection, of at most 10 records, filtered by [q]
    in title or artist; and when that pattern compiles the answer is
    [play_song] with the records found. *)
Definition searches_songs (transcript : string) (e : env) (q : string) : Prop :=
  forall st, db e = Some st ->
    let f := phrase_filter "title" "artist" q in
    oplog (ai_command transcript e).2 = (oplog e ++ [OpFind "song" f 10])%list /\
    (Query.filter_ok f = true ->
     (ai_command transcript e).1 =
       Return {| action := "play_song";
                 items := Some (normalize_id <$> found st "song" f 10);
                 message := "Found " ++
                            PyStr.of_nat (length (normalize_id <$> found st "song" f 10)) ++
                            " song(s)" |}).

(** A store with nothing in it. *)
Definition empty_store : store := {| colls := ∅; next_oid := 0 |}.

(** An item as the API shows it: a string [id], and no [_id]. *)
Definition well_identified (d : dict) : Prop :=
  (exists s, d !! "id" = Some (Sc (SStr s))) /\ d !! "_id" = None.

(** A song, a playlist and a store that holds them. *)
Definition yellow : document :=
  {| doc_id := SOid "64b7f0c2a1d3e5f6a7b8c9d0";
     doc_fields := Song.model_dump
       {| Song.title := "Yellow"; Song.artist := "Coldplay";
          Song.album := Some "Parachutes"; Song.cover_url := None;
          Song.audio_url := None; Song.duration_sec := Some 269%Z;
          Song.genre := Some "rock" |} |}.

Definition road_mix : document :=
  {| doc_id := SOid "507f1f77bcf86cd799439011";
     doc_fields := Playlist.model_dump
       {| Playlist.name := "Road mix"; Playlist.description := None;
          Playlist.song_ids := [] |} |}.

Definition demo_store : store :=
  {| colls := <["song" := [yellow]]> (<["playlist" := [road_mix]]> ∅);
     next_oid := 7 |}.

(** The record the store keeps for a [dict] without [_id]. *)
Definition stored (st : store) (d : dict) : document :=
  {| doc_id := SOid (PyRepr.hex_acc 24 (next_oid st) EmptyString);
     doc_fields := delete "_id" d |}.

(** The store after the insertion of that record into collection [c]. *)
Definition inserted (st : store) (c : string) (d : dict) : store :=
  {| colls := <[c := (coll st c ++ [stored st d])%list]> (colls st);
     next_oid := N.succ (next_oid st) |}.

(** The items of a pattern without metacharacters. *)
Fixpoint lits (s : string) : list Regex.item :=
  match s with
  | EmptyString => []
  | String c r => Regex.Lit c :: lits r
  end.

(** Equal, letter case apart. *)
Definition ci_eqb (a b : string) : bool := String.eqb (PyStr.lower a) (PyStr.lower b).

(** [q] occurs in [s], letter case apart. *)
Definition ci_contains (q s : string) : bool :=
  PyStr.contains (PyStr.lower q) (PyStr.lower s).

Definition line_feed : string := String Regex.newline EmptyString.

(** The string a record has in a field, if it has one there. *)
Definition str_field (d : document) (f : string) : option string :=
  match doc_fields d !! f with
  | Some (Sc (SStr s)) => Some s
  | _ => None
  end.

(** The field of the record is no array (the schemas have none but
    [song_ids]). *)
Definition no_array (d : document) (f : string) : Prop :=
  forall l, doc_fields d !! f <> Some (Arr l).

(** The stored genre is the term, letter case apart; a line feed may end
    the stored one, since [$] also matches before a final line feed. *)
Definition genre_equal (term : string) (stored : option string) : bool :=
  match stored with
  | Some s => ci_eqb term s || ci_eqb (term ++ line_feed) s
  | None => false
  end.

(** The term occurs in one of two stored strings, letter case apart. *)
Definition either_contains (term : string) (s1 s2 : option string) : bool :=
  from_option (ci_contains term) false s1 || from_option (ci_contains term) false s2.

(** Two channels, of genre "rock" and of genre "Rock Music". *)
Definition rock_fm : document :=
  {| doc_id := SOid "64b7f0c2a1d3e5f6a7b8c9e1";
     doc_fields := Channel.model_dump
       {| Channel.name := "Classic Rock FM"; Channel.description := None;
          Channel.stream_url := "https://stream.revma.ihrhls.com/zc1469";
          Channel.genre := Some "rock" |} |}.

Definition rock_music_fm : document :=
  {| doc_id := SOid "64b7f0c2a1d3e5f6a7b8c9e2";
     doc_fields := Channel.model_dump
       {| Channel.name := "All Rock"; Channel.description := None;
          Channel.stream_url := "https://example.org/rock";
          Channel.genre := Some "Rock Music" |} |}.

Definition radio_store : store :=
  {| colls := <["channel" := [rock_fm; rock_music_fm]]> (<["song" := [yellow]]> ∅);
     next_oid := 9 |}.

(** A request to add the sample song to the sample playlist. *)
Definition ask : PlaylistAddSong :=
  {| playlist_id := "507f1f77bcf86cd799439011"; song_id := "64b7f0c2a1d3e5f6a7b8c9d0" |}.

(** The call of line 102, for the record that [find_one] returned. *)
Definition empty_update_call (st : store) : op :=
  OpUpdate "playlist"
    [KField "_id"
       (CEq (to_dict <$> head (List.filter (Query.matches any_object_id)
                                 (coll st "playlist"))))]
    UEmpty.

(** A call that adds [song] to the [song_ids] of a playlist. *)
Definition adds_song (song : string) (o : op) : Prop :=
  exists f, o = OpUpdate "playlist" f (add_to_song_ids song).

(** The [song_ids] of the playlists of a store. *)
Definition playlist_songs (st : store) : list (option value) :=
  (fun d => doc_fields d !! "song_ids") <$> coll st "playlist".

(** The store after a request, when there is one. *)
Definition store_after {A} (r : A * env) : option store := db r.2.

(** ** The create handlers of [main.py] *)

Module SongCreate.
Record t : Type := {
  title : string;
  artist : string;
  album : option string;
  cover_url : option string;
  audio_url : option string;
  duration_sec : option Z;
  genre : option string
}.
End SongCreate.

Module PlaylistCreate.
Record t : Type := { name : string; description : option string }.
End PlaylistCreate.

Module ChannelCreate.
Record t : Type := {
  name : string;
  description : option string;
  stream_url : string;
  genre : option string
}.
End ChannelCreate.

(** [{"id": new_id, "message": ...}] *)
Record created : Type := { created_id : string; created_message : string }.

(** [SongSchema] built from the fields of the payload: they are copied, and
    [duration_sec], when given, must be at least 0 ([ge=0]); [inr z] is the
    validation error for the duration [z]. *)
Definition song_schema (p : SongCreate.t) : Song.t + Z :=
  let song :=
    {| Song.title := SongCreate.title p; Song.artist := SongCreate.artist p;
       Song.album := SongCreate.album p; Song.cover_url := SongCreate.cover_url p;
       Song.audio_url := SongCreate.audio_url p;
       Song.duration_sec := SongCreate.duration_sec p;
       Song.genre := SongCreate.genre p |} in
  match SongCreate.duration_sec p with
  | Some z => if (0 <=? z)%Z then inl song else inr z
  | None => inl song
  end.

(** [POST /api/songs]; [describe z] is the text of the validation error
    that the schema raises for the duration [z]. *)
Definition create_song (describe : Z -> string) (payload : SongCreate.t)
    : env -> http created * env :=
  guarded (
    let* song := match song_schema payload with
                 | inl song => ret song
                 | inr z => raise (describe z)
                 end in
    let* new_id := create_document "song" (Song.model_dump song) in
    ret {| created_id := new_id; created_message := "Song added" |}).

(** [PlaylistSchema(name=payload.name, description=payload.description,
    song_ids=[])] *)
Definition playlist_schema (p : PlaylistCreate.t) : Playlist.t :=
  {| Playlist.name := PlaylistCreate.name p;
     Playlist.description := PlaylistCreate.description p;
     Playlist.song_ids := [] |}.

(** [POST /api/playlists] *)
Definition create_playlist (payload : PlaylistCreate.t) : env -> http created * env :=
  guarded (
    let* new_id := create_document "playlist"
                     (Playlist.model_dump (playlist_schema payload)) in
    ret {| created_id := new_id; created_message := "Playlist created" |}).

(** [ChannelSchema] built from the fields of the payload. *)
Definition channel_schema (p : ChannelCreate.t) : Channel.t :=
  {| Channel.name := ChannelCreate.name p;
     Channel.description := ChannelCreate.description p;
     Channel.stream_url := ChannelCreate.stream_url p;
     Channel.genre := ChannelCreate.genre p |}.

(** [POST /api/channels] *)
Definition create_channel (payload : ChannelCreate.t) : env -> http created * env :=
  guarded (
    let* new_id := create_document "channel"
                     (Channel.model_dump (channel_schema payload)) in
    ret {| created_id := new_id; created_message := "Channel added" |}).

(** ** Further vocabulary *)

(** The two queries of [lookup_and_add]. *)
Definition by_object_id (oid : scalar) : filter := [KField "_id" (CIs oid)].
Definition by_id_field (pid : string) : filter := [KField "id" (CIs (SStr pid))].

(** The playlist that the request names: by [_id] when the identifier is an
    [ObjectId], by its [id] field otherwise. *)
Definition names_playlist (pid : string) (d : document) : bool :=
  match ObjectId pid with
  | Some oid => Query.matches (by_object_id oid) d
  | None => Query.matches (by_id_field pid) d
  end.

(** The fixed answers of [ai_command] without a search. *)
Definition did_not_catch : reply :=
  {| action := "none"; items := None; message := "I didn't catch that." |}.

Definition try_this : reply :=
  {| action := "none"; items := None;
     message := "Try: 'Play channel jazz' or 'Find song by Coldplay'" |}.

(** The answer of a search that found [its]. *)
Definition found_reply (act kind : string) (its : list dict) : reply :=
  {| action := act; items := Some its;
     message := "Found " ++ PyStr.of_nat (length its) ++ kind |}.

(** The first [n] records of a collection, as the API shows them. *)
Definition first_shown (st : store) (c : string) (n : nat) : list dict :=
  normalize_id <$> (to_dict <$> take n (coll st c)).

(** A term of a list request that is absent, empty or free of pattern
    metacharacters. *)
Definition plain_term (o : option string) : bool :=
  from_option Regex.plain true o.

(** A playlist with nothing but an [id] field of its own. *)
Definition named (i : Z) (name : string) : document :=
  {| doc_id := SInt i; doc_fields := <["id" := Sc (SStr name)]> ∅ |}.

(** A song with a negative duration, and a validation text for it. *)
Definition backwards_song : SongCreate.t :=
  {| SongCreate.title := "Yellow"; SongCreate.artist := "Coldplay";
     SongCreate.album := None; SongCreate.cover_url := None;
     SongCreate.audio_url := None; SongCreate.duration_sec := Some (-1)%Z;
     SongCreate.genre := None |}.

Definition too_small (z : Z) : string :=
  "duration_sec: Input should be greater than or equal to 0, got " ++ PyStr.of_Z z.

(** The songs of a playlist record: none when the field is missing, and
    [None] when the field is no array. *)
Definition song_list (d : document) : option (list scalar) :=
  match doc_fields d !! "song_ids" with
  | None => Some []
  | Some (Arr l) => Some l
  | Some (Sc _) => None
  end.

(** The playlist [d], whose songs are [l], once [song] is in it. *)
Definition with_song (d : document) (l : list scalar) (song : string) : document :=
  if bool_decide (SStr song ∈ l) then d
  else {| doc_id := doc_id d;
          doc_fields := <["song_ids" := Arr (l ++ [SStr song])]> (doc_fields d) |}.

(** The store once collection [c] holds [ds]; a collection that holds them
    already is left alone. *)
Definition updated (st : store) (c : string) (ds : list document) : store :=
  if bool_decide (ds = coll st c) then st else set_coll st c ds.

(** What lines 104 to 110 make of the playlists [ds]: the update by
    [ObjectId], and the update by the [id] field when the identifier is no
    [ObjectId] or the first update failed; [None] when the last update
    tried failed. *)
Definition added (p : PlaylistAddSong) (ds : list document) : option (list document) :=
  let u := add_to_song_ids (song_id p) in
  let fallback := Query.update_first (by_id_field (playlist_id p)) u ds in
  match ObjectId (playlist_id p) with
  | Some oid =>
      match Query.update_first (by_object_id oid) u ds with
      | Some r => Some r
      | None => fallback
      end
  | None => fallback
  end.

(** A playlist whose [song_ids] is a string, stored under an [ObjectId]. *)
Definition broken_mix : document :=
  {| doc_id := SOid "507f1f77bcf86cd799439011";
     doc_fields := <["song_ids" := Sc (SStr "none yet")]> ∅ |}.

(** The identifier that the store assigns next, as a string. *)
Definition next_id (st : store) : string :=
  PyRepr.hex_acc 24 (next_oid st) EmptyString.

(** The store once the default channels are inserted, one after the
    other. *)
Definition seeded (st : store) : store :=
  fold_left (fun s ch => inserted s "channel" (Channel.model_dump ch)) defaults st.

(** ** Vocabulary of the catalogue filters, continued *)

(** The strings among the elements of an array. *)
Definition strings_of (l : list scalar) : list string :=
  omap (fun x => match x with SStr s => Some s | _ => None end) l.

(** The strings on which the store tries a pattern given for field [f]: the
    string that the field holds, or the strings among the elements of the
    array that it holds. *)
Definition field_strings (d : document) (f : string) : list string :=
  match doc_fields d !! f with
  | Some (Sc (SStr s)) => [s]
  | Some (Arr l) => strings_of l
  | _ => []
  end.

(** The genre of the record is the term: the field is a string equal to the
    term, or an array with such a string, letter case and a final line feed
    of the stored string apart. *)
Definition genre_is (term : string) (d : document) : bool :=
  existsb (fun s => genre_equal term (Some s)) (field_strings d "genre").

(** Field [f] of the record has the term in it: the field is a string that
    contains the term, or an array with such a string, letter case apart. *)
Definition text_in (term : string) (d : document) (f : string) : bool :=
  existsb (ci_contains term) (field_strings d f).

(** Channels whose genre is "rock" with a line feed after it, and the array
    of "rock" and "pop". *)
Definition rock_line : document :=
  {| doc_id := SOid "64b7f0c2a1d3e5f6a7b8c9e3";
     doc_fields := <["name" := Sc (SStr "Rock Line")]>
                   (<["genre" := Sc (SStr ("rock" ++ line_feed))]> ∅) |}.

Definition rock_pop : document :=
  {| doc_id := SOid "64b7f0c2a1d3e5f6a7b8c9e4";
     doc_fields := <["name" := Sc (SStr "Rock and Pop")]>
                   (<["genre" := Arr [SStr "rock"; SStr "pop"]]> ∅) |}.

Definition odd_store : store :=
  {| colls := <["channel" := [rock_line; rock_pop; rock_music_fm]]> ∅; next_oid := 3 |}.

(** A song by two artists, and a store that holds it. *)
Definition duet : document :=
  {| doc_id := SOid "64b7f0c2a1d3e5f6a7b8c9d1";
     doc_fields := <["title" := Sc (SStr "Princess of China")]>
                   (<["artist" := Arr [SStr "Coldplay"; SStr "Rihanna"]]> ∅) |}.

Definition duet_store : store :=
  {| colls := <["song" := [yellow; duet]]> ∅; next_oid := 3 |}.

(** Name, description, stream and genre of a channel record. *)
Definition channel_card (d : document)
    : option string * option string * option string * option string :=
  (str_field d "name", str_field d "description",
   str_field d "stream_url", str_field d "genre").


(** * Properties *)

(** ** The definitions at work *)

Example lower_ex : PyStr.lower "Find Song by Coldplay" = "find song by coldplay".
Proof. reflexivity. Qed.

Example strip_ex : PyStr.strip "  play  fm " = "play  fm".
Proof. reflexivity. Qed.

Example remove_ex : PyStr.remove "play" "plplayay coldplay" = "play cold".
Proof. reflexivity. Qed.

Example remove_overlap_ex : PyStr.remove "aa" "aaa" = "a".
Proof. reflexivity. Qed.

Example of_nat_ex : PyStr.of_nat 0 = "0" /\ PyStr.of_nat 12 = "12".
Proof. split; reflexivity. Qed.

Example regex_substring_ex : Regex.test "cold" "i" "Coldplay" = Some true.
Proof. reflexivity. Qed.

Example regex_anchor_ex :
  Regex.test "^Rock$" "i" "rock" = Some true /\
  Regex.test "^Rock$" "i" "Rock Music" = Some false.
Proof. split; reflexivity. Qed.

Example regex_dot_ex : Regex.test "^r.ck$" "i" "rock" = Some true.
Proof. reflexivity. Qed.

Example regex_bad_ex : Regex.test "(" "i" "rock" = None.
Proof. reflexivity. Qed.

Example py_str_ex :
  PyRepr.py_str (Sc (SOid "507f1f77bcf86cd799439011")) = "507f1f77bcf86cd799439011" /\
  PyRepr.py_str (Arr [SStr "a"; SInt (-3); SNull]) = "['a', -3, None]".
Proof. split; reflexivity. Qed.

Example hex_ex : PyRepr.hex_acc 4 255 "" = "00ff".
Proof. reflexivity. Qed.

Example ObjectId_ex :
  ObjectId "507F1f77bcf86cd799439011" = Some (SOid "507f1f77bcf86cd799439011") /\
  ObjectId "my-playlist" = None.
Proof. split; reflexivity. Qed.

(** ** Facts about the string operations *)

Section StringFacts.
Import PyStr.

Lemma isspace_lower_char (c : ascii) : isspace (lower_char c) = isspace c.
Proof. destruct c as [[] [] [] [] [] [] [] []]; reflexivity. Qed.

Lemma append_nil_l (b : string) : EmptyString ++ b = b.
Proof. reflexivity. Qed.

Lemma append_cons (c : ascii) (a b : string) :
  String c a ++ b = String c (a ++ b).
Proof. reflexivity. Qed.

Lemma lower_app (a b : string) : lower (a ++ b) = lower a ++ lower b.
Proof. induction a as [|c a IH]; simpl; [reflexivity | by rewrite IH]. Qed.

Lemma lstrip_lower (s : string) : lstrip (lower s) = lower (lstrip s).
Proof.
  induction s as [|c s IH]; simpl; [reflexivity|].
  rewrite isspace_lower_char. by destruct (isspace c).
Qed.

Lemma rstrip_lower (s : string) : rstrip (lower s) = lower (rstrip s).
Proof.
  induction s as [|c s IH]; simpl; [reflexivity|].
  rewrite IH, isspace_lower_char.
  destruct (rstrip s); simpl; [by destruct (isspace c) | reflexivity].
Qed.

Lemma strip_lower (s : string) : strip (lower s) = lower (strip s).
Proof. unfold strip. by rewrite lstrip_lower, rstrip_lower. Qed.

Lemma lstrip_all_space (s : string) : all_space s = true -> lstrip s = EmptyString.
Proof.
  induction s as [|c s IH]; simpl; [reflexivity|].
  intros [Hc Hs]%andb_prop. rewrite Hc. auto.
Qed.

Lemma strip_all_space (s : string) : all_space s = true -> strip s = EmptyString.
Proof. intros H. unfold strip. by rewrite lstrip_all_space. Qed.

Lemma rstrip_empty_all_space (s : string) :
  rstrip s = EmptyString -> all_space s = true.
Proof.
  induction s as [|c s IH]; simpl; [reflexivity|].
  destruct (rstrip s); [|discriminate].
  destruct (isspace c); [auto | discriminate].
Qed.

Lemma lstrip_keeps_all_space (s : string) :
  all_space (lstrip s) = true -> all_space s = true.
Proof.
  induction s as [|c s IH]; simpl; [reflexivity|].
  destruct (isspace c) eqn:Hc; simpl; [auto|].
  rewrite Hc. discriminate.
Qed.

(** Exactly the strings of white space strip to the empty string. *)
Lemma strip_empty_iff (s : string) :
  strip s = EmptyString <-> all_space s = true.
Proof.
  split; [|apply strip_all_space].
  intros H. by apply lstrip_keeps_all_space, rstrip_empty_all_space.
Qed.

Lemma all_space_lower (s : string) : all_space (lower s) = all_space s.
Proof.
  induction s as [|c s IH]; simpl; [reflexivity|].
  by rewrite isspace_lower_char, IH.
Qed.

(** *** Occurrences survive stripping *)

Lemma prefix_cons (a b : ascii) (k s : string) :
  String.prefix (String a k) (String b s) = Ascii.eqb a b && String.prefix k s.
Proof.
  simpl. destruct (ascii_dec a b) as [->|Hne].
  - by rewrite Ascii.eqb_refl.
  - by apply Ascii.eqb_neq in Hne as ->.
Qed.

Lemma prefix_nil (k : string) : String.prefix k EmptyString = true -> k = EmptyString.
Proof. by destruct k. Qed.

Lemma contains_nil (k : string) : contains k EmptyString = true -> k = EmptyString.
Proof. simpl. rewrite orb_false_r. apply prefix_nil. Qed.

Lemma contains_cons (k : string) (c : ascii) (s : string) :
  contains k (String c s) = String.prefix k (String c s) || contains k s.
Proof. reflexivity. Qed.

Lemma prefix_contains (k s : string) :
  String.prefix k s = true -> contains k s = true.
Proof. intros H. destruct s; simpl in *; by rewrite H. Qed.

Lemma contains_lstrip (k s : string) :
  starts_solid k = true -> contains k s = true -> contains k (lstrip s) = true.
Proof.
  intros Hk. induction s as [|c s IH]; [done|].
  simpl lstrip. destruct (isspace c) eqn:Hc; [|done].
  rewrite contains_cons. intros [Hp|Hs]%orb_prop; [|auto].
  destruct k as [|a k]; [done|].
  rewrite prefix_cons in Hp. apply andb_prop in Hp as [->%Ascii.eqb_eq _].
  simpl in Hk. by rewrite Hc in Hk.
Qed.

Lemma ends_solid_cons (a b : ascii) (k : string) :
  ends_solid (String a (String b k)) = ends_solid (String b k).
Proof. reflexivity. Qed.

Lemma prefix_rstrip (k s : string) :
  ends_solid k = true -> String.prefix k s = true ->
  String.prefix k (rstrip s) = true.
Proof.
  revert s. induction k as [|a k IH]; [done|].
  intros [|b s] Hk; [done|].
  rewrite prefix_cons. intros [->%Ascii.eqb_eq Hp]%andb_prop.
  destruct k as [|a' k].
  - simpl in Hk. simpl rstrip.
    destruct (rstrip s); [|by rewrite prefix_cons, Ascii.eqb_refl].
    destruct (isspace b); [done|]. by rewrite prefix_cons, Ascii.eqb_refl.
  - rewrite ends_solid_cons in Hk. specialize (IH s Hk Hp).
    simpl rstrip. destruct (rstrip s) as [|x r] eqn:Hr; [done|].
    by rewrite prefix_cons, Ascii.eqb_refl.
Qed.

Lemma contains_rstrip (k s : string) :
  ends_solid k = true -> contains k s = true -> contains k (rstrip s) = true.
Proof.
  intros Hk. induction s as [|c s IH]; [done|].
  rewrite contains_cons. intros [Hp|Hs]%orb_prop.
  - by apply prefix_contains, prefix_rstrip.
  - specialize (IH Hs). simpl rstrip.
    destruct (rstrip s) as [|x r] eqn:Hr.
    + apply contains_nil in IH. by subst k.
    + rewrite contains_cons, IH. apply orb_true_r.
Qed.

(** An occurrence of a keyword that begins and ends with a visible
    character is still there after [strip]. *)
Lemma contains_strip (k s : string) :
  starts_solid k = true -> ends_solid k = true ->
  contains k s = true -> contains k (strip s) = true.
Proof.
  intros H1 H2 H. unfold strip. by apply contains_rstrip, contains_lstrip.
Qed.

(** *** Removing what is not there *)



Lemma contains_app_r (k a b : string) :
  contains k b = true -> contains k (a ++ b) = true.
Proof.
  intros H. induction a as [|c a IH]; [done|].
  change (String c a ++ b) with (String c (a ++ b)).
  rewrite contains_cons, IH. apply orb_true_r.
Qed.


(** A string that has [k ++ r] inside has [k] inside. *)
Lemma prefix_app_l (k r s : string) :
  String.prefix (k ++ r) s = true -> String.prefix k s = true.
Proof.
  revert s. induction k as [|c k IH]; intros s; [by destruct s|].
  destruct s as [|x s]; [done|].
  change (String c k ++ r) with (String c (k ++ r)).
  rewrite !prefix_cons. intros [-> Hp]%andb_prop. simpl. eauto.
Qed.

Lemma contains_app_l (k r s : string) :
  contains (k ++ r) s = true -> contains k s = true.
Proof.
  induction s as [|c s IH].
  - intros H%contains_nil. by destruct k.
  - rewrite !contains_cons. intros [Hp|Hs]%orb_prop.
    + by rewrite (prefix_app_l _ _ _ Hp).
    + rewrite (IH Hs). apply orb_true_r.
Qed.

End StringFacts.

(** ** Running the gateway *)

Lemma get_documents_run (c : string) (f : filter) (limit : nat) (e : env) :
  get_documents c f limit e =
    match db e with
    | None => (Raise (gateway_unset e), e)
    | Some st =>
        (if Query.filter_ok f then Return (found st c f limit)
         else Raise Client.no_regex,
         log (OpFind c f limit) e)
    end.
Proof.
  unfold get_documents, Client.find, Client.the_store, bind, ret, raise, found.
  destruct (db e) eqn:Hdb; [|done]. cbn. rewrite Hdb.
  by destruct (Query.filter_ok f).
Qed.

(** ** The intent classifier *)

Section Intent.
Import PyStr.

Lemma any_in_strip (ks : list string) (s : string) :
  forallb (fun k => starts_solid k && ends_solid k) ks = true ->
  any_in ks s = true -> any_in ks (strip s) = true.
Proof.
  unfold any_in. induction ks as [|k ks IH]; simpl; [done|].
  intros [[H1 H2]%andb_prop Hks]%andb_prop [Hk|Hr]%orb_prop.
  - by rewrite contains_strip.
  - rewrite IH by done. apply orb_true_r.
Qed.

Lemma any_in_truthy (ks : list string) (t : string) :
  forallb truthy ks = true -> any_in ks t = true -> truthy t = true.
Proof.
  unfold any_in. intros Hks [k [Hin Hk]]%existsb_exists.
  destruct t; [|done]. apply contains_nil in Hk. subst k.
  rewrite forallb_forall in Hks. by apply Hks in Hin.
Qed.

(** The normalised transcript of a transcript that names a channel
    keyword takes the channel branch. *)
Lemma channel_branch (tr : string) :
  any_in channel_keywords (lower tr) = true ->
  truthy (strip (lower tr)) = true /\
  any_in channel_keywords (strip (lower tr)) = true.
Proof.
  intros H. apply (any_in_strip channel_keywords) in H; [|reflexivity].
  split; [|done]. by apply (any_in_truthy channel_keywords).
Qed.

End Intent.

(** C9.  A transcript that is empty or made of white space only is answered
    with action [none], and the environment is left as it was: no call is
    made on the store (the log of calls is unchanged). *)
Theorem blank_transcript_none (e : env) (transcript : string) :
  PyStr.all_space transcript = true ->
  ai_command transcript e =
    (Return {| action := "none"; items := None; message := "I didn't catch that." |}, e).
Proof.
  intros H. unfold ai_command.
  rewrite strip_all_space by (by rewrite all_space_lower). reflexivity.
Qed.

Lemma blank_transcript_none_witness :
  PyStr.all_space "   " = true /\
  ai_command "   " (pymongo None) =
    (Return {| action := "none"; items := None; message := "I didn't catch that." |},
     pymongo None).
Proof.
  split; [reflexivity|]. apply (blank_transcript_none (pymongo None) "   ").
  reflexivity.
Defined.

(** C4.  A transcript whose lowercased form has a channel keyword and a song
    keyword takes the channel branch: whatever the handler returns has
    action [play_channel] (never [play_song]); the one call it makes is a read of
    the channel collection; and it does return whenever the store handle is
    set and the search phrase compiles as a pattern. *)
Theorem channel_intent_first (e : env) (transcript : string) :
  PyStr.any_in channel_keywords (PyStr.lower transcript) = true ->
  PyStr.any_in song_keywords (PyStr.lower transcript) = true ->
  let f := phrase_filter "name" "genre"
             (channel_keyword (PyStr.strip (PyStr.lower transcript))) in
  (forall r e', ai_command transcript e = (Return r, e') ->
     action r = "play_channel" /\ oplog e' = (oplog e ++ [OpFind "channel" f 5])%list) /\
  (forall st, db e = Some st -> Query.filter_ok f = true ->
     exists r e', ai_command transcript e = (Return r, e') /\
                  action r = "play_channel").
Proof.
  intros Hc _ f. destruct (channel_branch _ Hc) as [Ht Hk].
  unfold ai_command. rewrite Ht, Hk. cbn [negb]. fold f.
  unfold bind, ret. rewrite get_documents_run.
  split.
  - intros r e'. destruct (db e) eqn:Hdb; [|by intros [=]].
    destruct (Query.filter_ok f); [|by intros [=]].
    by intros [= <- <-].
  - intros st Hdb Hok. rewrite Hdb, Hok. eauto.
Qed.

Lemma channel_intent_first_witness :
  exists r e',
    ai_command "Play song on Jazz FM" (pymongo (Some {| colls := ∅; next_oid := 0 |}))
      = (Return r, e') /\
    action r = "play_channel".
Proof.
  refine (proj2 (channel_intent_first
            (pymongo (Some {| colls := ∅; next_oid := 0 |}))
            "Play song on Jazz FM" _ _) _ _ _); reflexivity.
Defined.

Section SongIntent.
Import PyStr.

Lemma any_in_false_truthy (ks : list string) (t : string) :
  forallb truthy ks = true -> any_in ks t = true -> negb (truthy t) = false.
Proof. intros H1 H2. by rewrite (any_in_truthy ks t). Qed.

Lemma song_branch (e : env) (tr : string) :
  any_in channel_keywords (strip (lower tr)) = false ->
  any_in song_keywords (strip (lower tr)) = true ->
  searches_songs tr e (song_query (strip (lower tr))).
Proof.
  intros Hc Hs st Hdb f. unfold ai_command.
  rewrite (any_in_false_truthy song_keywords) by done.
  rewrite Hc, Hs. fold f. unfold bind, ret. rewrite get_documents_run, Hdb.
  destruct (Query.filter_ok f); split; try done.
Qed.

Lemma rstrip_idem (s : string) : rstrip (rstrip s) = rstrip s.
Proof.
  induction s as [|c s IH]; [done|]. simpl.
  destruct (rstrip s) as [|x r] eqn:Hr.
  - destruct (isspace c) eqn:Hc; [done|]. simpl. by rewrite Hc.
  - cbn [rstrip] in *. by rewrite IH.
Qed.

Lemma lstrip_solid (s : string) : starts_solid s = true -> lstrip s = s.
Proof. destruct s as [|c s]; [done|]. simpl. by intros ->%negb_true_iff. Qed.

Lemma lstrip_cases (s : string) :
  lstrip s = EmptyString \/ starts_solid (lstrip s) = true.
Proof.
  induction s as [|c s IH]; [by left|]. simpl.
  destruct (isspace c) eqn:Hc; [done|]. right. simpl. by rewrite Hc.
Qed.

Lemma rstrip_solid (s : string) :
  starts_solid s = true -> starts_solid (rstrip s) = true.
Proof.
  destruct s as [|c s]; [done|]. simpl. intros Hc.
  destruct (rstrip s); [|done]. apply negb_true_iff in Hc as Hc'.
  by rewrite Hc'.
Qed.

Lemma strip_idem (s : string) : strip (strip s) = strip s.
Proof.
  unfold strip. destruct (lstrip_cases s) as [->|H]; [done|].
  by rewrite (lstrip_solid _ (rstrip_solid _ H)), rstrip_idem.
Qed.





End SongIntent.

(** C3, as stated, fails: for "find song by Coldplay" the search phrase is
    not "by coldplay". *)
Lemma residual_by_coldplay_counterexample :
  ~ searches_songs "find song by Coldplay" (pymongo (Some empty_store)) "by coldplay".
Proof.
  intros H. destruct (H empty_store eq_refl) as [Hlog _].
  vm_compute in Hlog. discriminate Hlog.
Qed.

(** C3, amended.  In the song branch the search phrase is the trimmed,
    lowercased transcript with "play song", "find song", "search song",
    "search" and "play" removed in that order, then trimmed; every "play" goes,
    also the one inside a longer word, so that "find song by Coldplay" is
    searched as "by cold". *)
Theorem song_residual_phrase (e : env) (transcript : string) :
  let t := PyStr.strip (PyStr.lower transcript) in
  PyStr.any_in channel_keywords t = false ->
  PyStr.any_in song_keywords t = true ->
  searches_songs transcript e
    (PyStr.strip
       (PyStr.remove "play" (PyStr.remove "search" (PyStr.remove "search song"
          (PyStr.remove "find song" (PyStr.remove "play song" t)))))) /\
  searches_songs "find song by Coldplay" e "by cold".
Proof.
  intros t Hc Hs. split.
  - apply (song_branch e transcript Hc Hs).
  - apply (song_branch e "find song by Coldplay"); reflexivity.
Qed.

Lemma song_residual_phrase_witness :
  searches_songs "Search song Yellow" (pymongo (Some empty_store)) "yellow".
Proof.
  refine (proj1 (song_residual_phrase (pymongo (Some empty_store))
                   "Search song Yellow" _ _)); reflexivity.
Defined.

Section WordsKept.
Import PyStr.






End WordsKept.




(** ** Identifier normalisation *)

Lemma normalize_id_stored (d : document) :
  normalize_id (to_dict d) !! "id" = Some (Sc (SStr (PyRepr.str_scalar (doc_id d)))) /\
  normalize_id (to_dict d) !! "_id" = None.
Proof.
  unfold normalize_id, to_dict. rewrite lookup_insert_eq. split.
  - rewrite lookup_delete_ne by done. by rewrite lookup_insert_eq.
  - apply lookup_delete_eq.
Qed.

(** Whatever the record, the normalised one has no [_id]. *)
Lemma normalize_id_drops (d : dict) : normalize_id d !! "_id" = None.
Proof.
  unfold normalize_id. destruct (d !! "_id") eqn:E; [apply lookup_delete_eq | done].
Qed.

Lemma found_well_identified (st : store) (c : string) (f : filter) (limit : nat) :
  Forall well_identified (normalize_id <$> found st c f limit).
Proof.
  unfold found. apply Forall_fmap, Forall_fmap, Forall_forall.
  intros d _. simpl. destruct (normalize_id_stored d) as [H1 H2].
  split; [eauto | done].
Qed.

Lemma list_run (c : string) (f : filter) (limit : nat) (e : env) :
  guarded (let* docs := get_documents c f limit in ret (normalize_id <$> docs)) e =
    match db e with
    | None => (Err500 (gateway_unset e), e)
    | Some st =>
        (if Query.filter_ok f then Ok200 (normalize_id <$> found st c f limit)
         else Err500 Client.no_regex,
         log (OpFind c f limit) e)
    end.
Proof.
  unfold guarded, bind, ret. rewrite get_documents_run.
  destruct (db e); [|done]. by destruct (Query.filter_ok f).
Qed.

Lemma list_items (c : string) (f : filter) (limit : nat) (e e' : env)
    (its : list dict) :
  guarded (let* docs := get_documents c f limit in ret (normalize_id <$> docs)) e
    = (Ok200 its, e') ->
  Forall well_identified its.
Proof.
  rewrite list_run. destruct (db e); [|by intros [=]].
  destruct (Query.filter_ok f); [|by intros [=]].
  intros [= <- _]. apply found_well_identified.
Qed.

Lemma ai_command_items (tr : string) (e e' : env) (r : reply) (its : list dict) :
  ai_command tr e = (Return r, e') -> items r = Some its ->
  Forall well_identified its.
Proof.
  unfold ai_command.
  destruct (negb _); [by intros [= <- _] [=]|].
  destruct (PyStr.any_in channel_keywords _).
  { unfold bind, ret. rewrite get_documents_run.
    destruct (db e); [|by intros [=]].
    destruct (Query.filter_ok _); [|by intros [=]].
    intros [= <- _] [= <-]. apply found_well_identified. }
  destruct (PyStr.any_in song_keywords _); [|by intros [= <- _] [=]].
  unfold bind, ret. rewrite get_documents_run.
  destruct (db e); [|by intros [=]].
  destruct (Query.filter_ok _); [|by intros [=]].
  intros [= <- _] [= <-]. apply found_well_identified.
Qed.

(** C8.  Every item that a list or search endpoint returns carries a string
    [id] and no [_id]. *)
Theorem items_carry_string_id (e : env) :
  (forall query genre limit its e',
     list_songs query genre limit e = (Ok200 its, e') -> Forall well_identified its) /\
  (forall limit its e',
     list_playlists limit e = (Ok200 its, e') -> Forall well_identified its) /\
  (forall genre limit its e',
     list_channels genre limit e = (Ok200 its, e') -> Forall well_identified its) /\
  (forall transcript r its e',
     ai_command transcript e = (Return r, e') -> items r = Some its ->
     Forall well_identified its).
Proof.
  split; [|split; [|split]].
  - intros q g limit its e'. apply list_items.
  - intros limit its e'. apply list_items.
  - intros g limit its e'. apply list_items.
  - intros tr r its e'. apply ai_command_items.
Qed.

Lemma items_carry_string_id_witness :
  Forall well_identified [normalize_id (to_dict yellow)].
Proof.
  refine (proj1 (items_carry_string_id (pymongo (Some demo_store)))
            None None 50 _ (log (OpFind "song" [] 50) (pymongo (Some demo_store))) _).
  reflexivity.
Defined.

(** ** Seeding the channels *)

Lemma coll_insert (st : store) (c : string) (ds : list document) (n : N) :
  coll {| colls := <[c := ds]> (colls st); next_oid := n |} c = ds.
Proof. unfold coll. simpl. by rewrite lookup_insert_eq. Qed.

Lemma coll_insert_ne (st : store) (c c' : string) (ds : list document) (n : N) :
  c <> c' ->
  coll {| colls := <[c := ds]> (colls st); next_oid := n |} c' = coll st c'.
Proof. intros H. unfold coll. simpl. by rewrite lookup_insert_ne. Qed.

Lemma encodable_spec (d : dict) :
  encodable d = true <-> map_Forall (fun _ v => value_encodable v = true) d.
Proof.
  unfold encodable. rewrite forallb_forall. split.
  - intros H k v Hkv. apply (H (k, v)).
    apply list_elem_of_In, elem_of_map_to_list, Hkv.
  - intros H [k v] Hin. apply list_elem_of_In, elem_of_map_to_list in Hin.
    exact (H k v Hin).
Qed.

Lemma encodable_empty : encodable ∅ = true.
Proof. apply encodable_spec, map_Forall_empty. Qed.

Lemma encodable_insert (k : string) (v : value) (d : dict) :
  value_encodable v = true -> encodable d = true -> encodable (<[k := v]> d) = true.
Proof.
  rewrite !encodable_spec. intros Hv Hd. by apply map_Forall_insert_2.
Qed.

Lemma opt_str_encodable (o : option string) : value_encodable (opt_str o) = true.
Proof. by destruct o. Qed.

Lemma channel_dump_encodable (ch : Channel.t) :
  encodable (Channel.model_dump ch) = true.
Proof.
  unfold Channel.model_dump.
  repeat (apply encodable_insert; [done || apply opt_str_encodable|]).
  apply encodable_empty.
Qed.

Lemma create_document_run (c : string) (d : dict) (e : env) (st : store) :
  db e = Some st -> d !! "_id" = None -> encodable d = true ->
  create_document c d e =
    (Return (PyRepr.hex_acc 24 (next_oid st) EmptyString),
     put (inserted st c d) (log (OpInsert c d) e)).
Proof.
  intros Hdb Hid Henc.
  unfold create_document, Client.insert_one, Client.the_store, bind, ret.
  rewrite Hdb. cbn. by rewrite Hdb, Henc, Hid.
Qed.

Lemma model_dump_no_id (ch : Channel.t) : Channel.model_dump ch !! "_id" = None.
Proof. unfold Channel.model_dump. by rewrite !lookup_insert_ne, lookup_empty. Qed.

Lemma stored_model_dump (st : store) (ch : Channel.t) :
  doc_fields (stored st (Channel.model_dump ch)) = Channel.model_dump ch.
Proof. simpl. apply delete_id, model_dump_no_id. Qed.

Lemma count_documents_run (c : string) (e : env) (st : store) :
  db e = Some st ->
  Client.count_documents c e = (Return (length (coll st c)), log (OpCount c) e).
Proof.
  intros Hdb. unfold Client.count_documents, Client.the_store, bind, ret.
  cbn. by rewrite Hdb.
Qed.

(** C7.  With the store handle set, seeding a channel collection that has a
    record changes nothing and answers "already seeded"; seeding an empty one
    inserts the three default channels, "Lofi Beats FM", "Classic Rock FM"
    and "Jazz Lounge", in this order, and only them. *)
Theorem seed_only_when_empty (e : env) (st : store) :
  db e = Some st ->
  (coll st "channel" <> [] ->
   seed_channels e = (Ok200 "Channels already seeded", log (OpCount "channel") e)) /\
  (coll st "channel" = [] ->
   exists e' st',
     seed_channels e = (Ok200 "Seeded default channels", e') /\
     db e' = Some st' /\
     doc_fields <$> coll st' "channel" = Channel.model_dump <$> defaults /\
     (forall c, c <> "channel" -> coll st' c = coll st c) /\
     oplog e' =
       (oplog e ++ OpCount "channel" ::
          ((fun ch => OpInsert "channel" (Channel.model_dump ch)) <$> defaults))%list /\
     channel_card <$> coll st' "channel" =
       [(Some "Lofi Beats FM", Some "Chill lofi for focus",
         Some "https://streams.ilovemusic.de/iloveradio9.mp3", Some "lofi");
        (Some "Classic Rock FM", Some "Rock anthems 24/7",
         Some "https://stream.revma.ihrhls.com/zc1469", Some "rock");
        (Some "Jazz Lounge", Some "Smooth jazz and lounge",
         Some "https://us4.internet-radio.com/proxy/club107?mp=/stream", Some "jazz")] /\
     length (oplog e') = length (oplog e) + 4).
Proof.
  intros Hdb. unfold seed_channels, guarded, bind, require_db.
  rewrite Hdb, (count_documents_run _ _ st Hdb). split.
  - intros Hne. destruct (coll st "channel"); [done|]. reflexivity.
  - intros Hemp. rewrite Hemp. cbn [length Nat.ltb Nat.leb].
    unfold defaults. cbn [for_each]. unfold bind.
    set (e0 := log (OpCount "channel") e).
    assert (db e0 = Some st) as H0 by done.
    rewrite (create_document_run _ _ e0 st H0 (model_dump_no_id _)
               (channel_dump_encodable _)).
    set (e1 := put _ _).
    rewrite (create_document_run _ _ e1 _ eq_refl (model_dump_no_id _)
               (channel_dump_encodable _)).
    set (e2 := put _ _).
    rewrite (create_document_run _ _ e2 _ eq_refl (model_dump_no_id _)
               (channel_dump_encodable _)).
    set (e3 := put _ _). unfold ret.
    eexists e3, _. split; [reflexivity|]. split; [reflexivity|].
    split; [|split; [|split; [|split]]].
    + unfold inserted. rewrite !coll_insert, Hemp.
      rewrite !fmap_app. cbn [fmap list_fmap app].
      by rewrite !stored_model_dump.
    + intros c Hc. unfold inserted. by rewrite !coll_insert_ne.
    + cbn. by rewrite <- !app_assoc.
    + unfold inserted. rewrite !coll_insert, Hemp. reflexivity.
    + cbn. rewrite !length_app. simpl. lia.
Qed.

Lemma seed_only_when_empty_witness :
  (exists e' st',
     seed_channels (pymongo (Some demo_store)) = (Ok200 "Seeded default channels", e') /\
     db e' = Some st' /\
     channel_card <$> coll st' "channel" =
       [(Some "Lofi Beats FM", Some "Chill lofi for focus",
         Some "https://streams.ilovemusic.de/iloveradio9.mp3", Some "lofi");
        (Some "Classic Rock FM", Some "Rock anthems 24/7",
         Some "https://stream.revma.ihrhls.com/zc1469", Some "rock");
        (Some "Jazz Lounge", Some "Smooth jazz and lounge",
         Some "https://us4.internet-radio.com/proxy/club107?mp=/stream", Some "jazz")]) /\
  seed_channels (pymongo (Some (set_coll demo_store "channel" [yellow]))) =
    (Ok200 "Channels already seeded",
     log (OpCount "channel") (pymongo (Some (set_coll demo_store "channel" [yellow])))).
Proof.
  split.
  - destruct (proj2 (seed_only_when_empty (pymongo (Some demo_store)) demo_store
                       eq_refl) eq_refl) as (e' & st' & H1 & H2 & _ & _ & _ & H3 & _).
    exists e', st'. auto.
  - apply (proj1 (seed_only_when_empty
                    (pymongo (Some (set_coll demo_store "channel" [yellow])))
                    (set_coll demo_store "channel" [yellow]) eq_refl)).
    discriminate.
Defined.

(** ** The catalogue filters *)

Section RegexFacts.
Import Regex.

Lemma compile_char_plain (c : ascii) :
  is_meta c = false -> compile_char c = Some (Lit c).
Proof.
  intros H. unfold compile_char. rewrite H.
  destruct (Ascii.eqb_spec c ".") as [->|_]; [done|].
  destruct (Ascii.eqb_spec c "^") as [->|_]; [done|].
  by destruct (Ascii.eqb_spec c "$") as [->|_].
Qed.

Lemma compile_plain (p : string) : plain p = true -> compile p = Some (lits p).
Proof.
  induction p as [|c p IH]; [done|]. simpl.
  intros [Hc%negb_true_iff Hp]%andb_prop.
  by rewrite compile_char_plain, IH.
Qed.

Lemma compile_app (a b : string) :
  compile (a ++ b) =
    match compile a, compile b with
    | Some x, Some y => Some (x ++ y)%list
    | _, _ => None
    end.
Proof.
  induction a as [|c a IH].
  - rewrite append_nil_l. simpl. by destruct (compile b).
  - rewrite append_cons. simpl. rewrite IH. destruct (compile_char c); [|done].
    destruct (compile a); [|done]. by destruct (compile b).
Qed.

Lemma compile_anchored (g : string) :
  plain g = true -> compile ("^" ++ g ++ "$") = Some (Bol :: lits g ++ [Eol])%list.
Proof.
  intros H. change ("^" ++ g ++ "$") with (String "^" (g ++ "$")).
  cbn [compile]. rewrite compile_app, compile_plain by done. reflexivity.
Qed.

Lemma eqb_newline_lower (x : ascii) :
  Ascii.eqb newline (PyStr.lower_char x) = Ascii.eqb x newline.
Proof. destruct x as [[] [] [] [] [] [] [] []]; reflexivity. Qed.

Lemma match_here_anchored (g s : string) (b : bool) :
  match_here true (lits g ++ [Eol]) b s =
    String.eqb (PyStr.lower g) (PyStr.lower s) ||
    String.eqb (PyStr.lower g ++ line_feed) (PyStr.lower s).
Proof.
  revert s b. induction g as [|c g IH]; intros s b.
  - rewrite append_nil_l. cbn [lits app match_here PyStr.lower].
    rewrite andb_true_r. destruct s as [|x s]; [done|].
    cbn [at_end PyStr.lower]. unfold line_feed. cbn [String.eqb orb].
    rewrite eqb_newline_lower. by destruct s, (Ascii.eqb x newline).
  - cbn [lits app match_here PyStr.lower]. rewrite append_cons.
    destruct s as [|x s]; [done|].
    cbn [PyStr.lower String.eqb]. unfold char_eq. rewrite IH.
    by destruct (Ascii.eqb _ _).
Qed.

Lemma search_from_bol (ci : bool) (r : list item) (s : string) :
  search_from ci (Bol :: r) false s = false.
Proof. induction s as [|x s IH]; [done|]. simpl. exact IH. Qed.

(** The anchored pattern of a plain genre term is an equality test. *)
Lemma search_anchored (g s : string) :
  search true (Bol :: lits g ++ [Eol]) s = genre_equal g (Some s).
Proof.
  unfold search, genre_equal, ci_eqb. rewrite lower_app.
  transitivity (match_here true (lits g ++ [Eol]) true s).
  - destruct s as [|x s]; cbn [search_from match_here andb].
    + apply orb_false_r.
    + rewrite search_from_bol. apply orb_false_r.
  - apply match_here_anchored.
Qed.

Lemma match_here_lits (q s : string) (b : bool) :
  match_here true (lits q) b s = String.prefix (PyStr.lower q) (PyStr.lower s).
Proof.
  revert s b. induction q as [|c q IH]; intros s b.
  - by destruct s.
  - destruct s as [|x s]; [done|].
    cbn [lits match_here PyStr.lower]. rewrite prefix_cons, IH. reflexivity.
Qed.

Lemma search_from_lits (q s : string) (b : bool) :
  search_from true (lits q) b s = ci_contains q s.
Proof.
  unfold ci_contains. revert b. induction s as [|x s IH]; intros b.
  - cbn [search_from]. by rewrite match_here_lits.
  - cbn [search_from]. rewrite match_here_lits, IH. reflexivity.
Qed.

(** The pattern of a plain term is a substring test. *)
Lemma test_plain (q s : string) :
  plain q = true -> test q "i" s = Some (ci_contains q s).
Proof.
  intros H. unfold test. rewrite compile_plain by done.
  unfold search. by rewrite search_from_lits.
Qed.

Lemma test_anchored (g s : string) :
  plain g = true -> test ("^" ++ g ++ "$") "i" s = Some (genre_equal g (Some s)).
Proof.
  intros H. unfold test. rewrite compile_anchored by done.
  by rewrite <- search_anchored.
Qed.

End RegexFacts.

Section FilterFacts.

Lemma to_dict_lookup (d : document) (f : string) :
  f <> "_id" -> to_dict d !! f = doc_fields d !! f.
Proof. intros H. unfold to_dict. by rewrite lookup_insert_ne. Qed.

Lemma bool_decide_some (b : bool) : bool_decide (Some b = Some true) = b.
Proof.
  destruct b; [by apply bool_decide_eq_true|].
  apply bool_decide_eq_false. by intros [=].
Qed.

Lemma regex_plain_holds (q f : string) (d : document) :
  f <> "_id" -> Regex.plain q = true -> no_array d f ->
  Query.cond_holds (CRegex q "i") (to_dict d !! f) =
    from_option (ci_contains q) false (str_field d f).
Proof.
  intros Hf Hq Hd. rewrite to_dict_lookup by done. unfold str_field.
  destruct (doc_fields d !! f) as [[[]|l]|] eqn:E; try done.
  - simpl. by rewrite test_plain, bool_decide_some.
  - by destruct (Hd l).
Qed.

Lemma genre_clause_holds (g : string) (d : document) :
  Regex.plain g = true -> no_array d "genre" ->
  Query.clause_holds (genre_clause g) (to_dict d) =
    genre_equal g (str_field d "genre").
Proof.
  intros Hg Hd. unfold genre_clause. cbn [Query.clause_holds].
  rewrite to_dict_lookup by done. unfold str_field.
  destruct (doc_fields d !! "genre") as [[[]|l]|] eqn:E; try done.
  - simpl. by rewrite test_anchored, bool_decide_some.
  - by destruct (Hd l).
Qed.

Lemma genre_clause_ok (g : string) :
  Regex.plain g = true -> Query.clause_ok (genre_clause g) = true.
Proof.
  intros Hg. unfold genre_clause. cbn [Query.clause_ok Query.cond_ok].
  apply bool_decide_eq_true. rewrite compile_anchored by done. eauto.
Qed.

Lemma either_field_ok (f1 f2 q : string) :
  Regex.plain q = true -> Query.clause_ok (either_field f1 f2 q) = true.
Proof.
  intros Hq. unfold either_field.
  cbn [Query.clause_ok Query.cond_ok forallb snd]. rewrite compile_plain by done.
  rewrite (bool_decide_eq_true_2 _ (mk_is_Some _ _ eq_refl)). reflexivity.
Qed.

Lemma holds_app (f1 f2 : filter) (d : dict) :
  Query.holds (f1 ++ f2)%list d = Query.holds f1 d && Query.holds f2 d.
Proof. unfold Query.holds. apply forallb_app. Qed.

Lemma when_given_truthy (s : string) (k : string -> clause) :
  PyStr.truthy s = true -> when_given (Some s) k = [k s].
Proof. intros H. unfold when_given. by rewrite H. Qed.

End FilterFacts.

Section FilterFactsMore.

Lemma regex_strings (p f : string) (P : string -> bool) (d : document) :
  f <> "_id" ->
  (forall s, Regex.test p "i" s = Some (P s)) ->
  Query.cond_holds (CRegex p "i") (to_dict d !! f) = existsb P (field_strings d f).
Proof.
  intros Hf Hp. rewrite to_dict_lookup by done. unfold field_strings.
  destruct (doc_fields d !! f) as [[[]|l]|]; try done.
  - simpl. by rewrite Hp, bool_decide_some, orb_false_r.
  - cbn [Query.cond_holds]. induction l as [|x l IH]; [done|].
    destruct x; simpl; try exact IH.
    by rewrite Hp, bool_decide_some, IH.
Qed.

Lemma genre_clause_holds_any (g : string) (d : document) :
  Regex.plain g = true ->
  Query.clause_holds (genre_clause g) (to_dict d) = genre_is g d.
Proof.
  intros Hg. unfold genre_clause, genre_is. cbn [Query.clause_holds].
  apply regex_strings; [done|]. intros s. by apply test_anchored.
Qed.

Lemma either_field_holds_any (f1 f2 q : string) (d : document) :
  f1 <> "_id" -> f2 <> "_id" -> Regex.plain q = true ->
  Query.clause_holds (either_field f1 f2 q) (to_dict d) =
    text_in q d f1 || text_in q d f2.
Proof.
  intros H1 H2 Hq. unfold either_field, text_in.
  cbn [Query.clause_holds existsb fst snd].
  rewrite !(regex_strings q _ (ci_contains q)) by (done || intros s; by apply test_plain).
  by rewrite orb_false_r.
Qed.

Lemma songs_filter_both (query genre : option string) (d : document) :
  Query.matches (songs_filter query genre) d =
    Query.matches (songs_filter query None) d &&
    Query.matches (songs_filter None genre) d.
Proof.
  unfold Query.matches, songs_filter. cbn [when_given].
  by rewrite !holds_app, andb_true_r.
Qed.

End FilterFactsMore.

(** C5, as stated, fails.  The genre term is read as a pattern, so "r.ck"
    finds the channel whose genre is "rock"; and the term "rock" finds the
    channel whose genre is "rock" followed by a line feed and the one whose
    genre is the array of "rock" and "pop", neither of them a genre equal to
    the term (it does not find "Rock Music"). *)
Lemma genre_term_pattern_counterexample :
  ((list_channels (Some "r.ck") 50 (pymongo (Some radio_store))).1 =
     Ok200 [normalize_id (to_dict rock_fm)] /\
   str_field rock_fm "genre" = Some "rock" /\
   ci_eqb "r.ck" "rock" = false) /\
  ((list_channels (Some "rock") 50 (pymongo (Some odd_store))).1 =
     Ok200 [normalize_id (to_dict rock_line); normalize_id (to_dict rock_pop)] /\
   str_field rock_line "genre" = Some ("rock" ++ line_feed) /\
   ci_eqb "rock" ("rock" ++ line_feed) = false /\
   doc_fields rock_pop !! "genre" = Some (Arr [SStr "rock"; SStr "pop"])).
Proof. repeat split; reflexivity. Qed.

(** C5, amended.  A genre term without pattern metacharacters selects, on
    [GET /api/songs] and on [GET /api/channels], exactly the records whose
    genre is a string equal to the whole term, or an array with such a
    string among its elements, letter case apart and a line feed at the end
    of the stored string apart: "Rock" selects the genre "rock" and not
    "Rock Music". *)
Theorem genre_filter_anchored (genre : string) (d : document) :
  PyStr.truthy genre = true ->
  Regex.plain genre = true ->
  Query.filter_ok (channels_filter (Some genre)) = true /\
  Query.filter_ok (songs_filter None (Some genre)) = true /\
  Query.matches (channels_filter (Some genre)) d = genre_is genre d /\
  Query.matches (songs_filter None (Some genre)) d = genre_is genre d /\
  Query.matches (channels_filter (Some "Rock")) rock_fm = true /\
  Query.matches (channels_filter (Some "Rock")) rock_music_fm = false.
Proof.
  intros Ht Hg. unfold channels_filter, songs_filter, Query.matches.
  rewrite when_given_truthy by done. cbn [when_given app].
  unfold Query.filter_ok, Query.holds. cbn [forallb].
  rewrite genre_clause_ok, genre_clause_holds_any, !andb_true_r by done.
  repeat split; reflexivity.
Qed.

Lemma genre_filter_anchored_witness :
  Query.matches (songs_filter None (Some "ROCK")) yellow = true /\
  Query.matches (channels_filter (Some "ROCK")) rock_pop = true /\
  Query.matches (channels_filter (Some "ROCK")) rock_music_fm = false.
Proof.
  split; [|split].
  - refine (eq_trans (proj1 (proj2 (proj2 (proj2
              (genre_filter_anchored "ROCK" yellow _ _))))) _); reflexivity.
  - refine (eq_trans (proj1 (proj2 (proj2
              (genre_filter_anchored "ROCK" rock_pop _ _)))) _); reflexivity.
  - refine (eq_trans (proj1 (proj2 (proj2
              (genre_filter_anchored "ROCK" rock_music_fm _ _)))) _); reflexivity.
Defined.

(** C6, as stated, fails.  The query is read as a pattern, so "cold.lay"
    finds the song by "Coldplay", whose title and artist do not contain it;
    and the query "rihanna" finds the song whose artist is no string but the
    array of "Coldplay" and "Rihanna". *)
Lemma query_term_pattern_counterexample :
  ((list_songs (Some "cold.lay") None 50 (pymongo (Some demo_store))).1 =
     Ok200 [normalize_id (to_dict yellow)] /\
   str_field yellow "title" = Some "Yellow" /\
   str_field yellow "artist" = Some "Coldplay" /\
   either_contains "cold.lay" (Some "Yellow") (Some "Coldplay") = false) /\
  ((list_songs (Some "rihanna") None 50 (pymongo (Some duet_store))).1 =
     Ok200 [normalize_id (to_dict duet)] /\
   str_field duet "title" = Some "Princess of China" /\
   doc_fields duet !! "artist" = Some (Arr [SStr "Coldplay"; SStr "Rihanna"]) /\
   ci_contains "rihanna" "Princess of China" = false).
Proof. repeat split; reflexivity. Qed.

(** C6, amended.  A query without pattern metacharacters selects, on
    [GET /api/songs], exactly the records whose title or artist is a string
    that contains it, or an array with such a string among its elements,
    letter case apart ("cold" finds the artist "Coldplay"); and whatever the
    query and the genre, a record is selected when the query selects it and
    the genre selects it. *)
Theorem free_text_filter :
  (forall (query : string) (d : document),
     PyStr.truthy query = true ->
     Regex.plain query = true ->
     Query.filter_ok (songs_filter (Some query) None) = true /\
     Query.matches (songs_filter (Some query) None) d =
       text_in query d "title" || text_in query d "artist") /\
  (forall (query genre : option string) (d : document),
     Query.matches (songs_filter query genre) d =
       Query.matches (songs_filter query None) d &&
       Query.matches (songs_filter None genre) d) /\
  Query.matches (songs_filter (Some "cold") None) yellow = true.
Proof.
  split; [|split; [apply songs_filter_both | reflexivity]].
  intros q d Ht Hq. unfold songs_filter, Query.matches.
  rewrite when_given_truthy by done. cbn [when_given app]. split.
  - unfold Query.filter_ok. cbn [forallb]. by rewrite either_field_ok.
  - unfold Query.holds. cbn [forallb].
    rewrite either_field_holds_any by done. apply andb_true_r.
Qed.

Lemma free_text_filter_witness :
  Query.matches (songs_filter (Some "COLD") None) yellow = true /\
  Query.matches (songs_filter (Some "COLD") None) duet = true /\
  Query.matches (songs_filter (Some "c.ld") (Some "jazz")) yellow = false.
Proof.
  destruct free_text_filter as (Hq & Hand & _).
  split; [|split].
  - rewrite (proj2 (Hq "COLD" yellow eq_refl eq_refl)). reflexivity.
  - rewrite (proj2 (Hq "COLD" duet eq_refl eq_refl)). reflexivity.
  - rewrite (Hand (Some "c.ld") (Some "jazz") yellow). reflexivity.
Defined.

(** ** Adding a song to a playlist *)

Section AddSong.

Lemma find_one_run (c : string) (f : filter) (e : env) (st : store) :
  db e = Some st -> Query.filter_ok f = true ->
  Client.find_one c f e =
    (Return (to_dict <$> head (List.filter (Query.matches f) (coll st c))),
     log (OpFindOne c f) e).
Proof.
  intros Hdb Hok. unfold Client.find_one, Client.the_store, bind, ret.
  cbn. by rewrite Hdb, Hok.
Qed.

Lemma update_one_rejected (c : string) (f : filter) (e : env) (msg : string) :
  empty_update_error e = Some msg ->
  Client.update_one c f UEmpty e = (Raise msg, log (OpUpdate c f UEmpty) e).
Proof. intros H. unfold Client.update_one. cbn. by rewrite H. Qed.

Lemma update_one_log (c : string) (f : filter) (u : update) (e : env) :
  oplog (Client.update_one c f u e).2 = (oplog e ++ [OpUpdate c f u])%list.
Proof.
  unfold Client.update_one, Client.the_store, bind, raise. cbn.
  destruct u; [destruct (empty_update_error e)|]; cbn; try done;
    destruct (db e); try done;
    destruct (Query.filter_ok f); try done;
    destruct (Query.update_first _ _ _); try done;
    by case_bool_decide.
Qed.

(** The lookup by [ObjectId] and its fallback only make calls that add the
    song. *)
Lemma lookup_log (payload : PlaylistAddSong) (e : env) :
  exists rest,
    oplog (lookup_and_add payload e).2 = (oplog e ++ rest)%list /\
    Forall (adds_song (song_id payload)) rest.
Proof.
  unfold lookup_and_add, try_except.
  destruct (ObjectId (playlist_id payload)) as [oid|].
  - pose proof (update_one_log "playlist" [KField "_id" (CIs oid)]
                  (add_to_song_ids (song_id payload)) e) as H1.
    destruct (Client.update_one "playlist" [KField "_id" (CIs oid)] _ e)
      as [[[]|msg] e1]; simpl in H1.
    + eexists. split; [exact H1|]. repeat constructor. by eexists.
    + pose proof (update_one_log "playlist"
                    [KField "id" (CIs (SStr (playlist_id payload)))]
                    (add_to_song_ids (song_id payload)) e1) as H2.
      rewrite H1, <- app_assoc in H2.
      eexists. split; [exact H2|]. repeat constructor; by eexists.
  - unfold raise.
    eexists. split; [apply update_one_log|]. repeat constructor. by eexists.
Qed.

(** The handler, once the handle is known to be set and the first read is
    done. *)
Lemma add_song_run (payload : PlaylistAddSong) (e : env) (st : store) :
  db e = Some st ->
  add_song_to_playlist payload e =
    guarded (
      Client.update_one "playlist"
        [KField "_id"
           (CEq (to_dict <$> head (List.filter (Query.matches any_object_id)
                                     (coll st "playlist"))))] UEmpty ;;
      lookup_and_add payload ;;
      ret true) (log (OpFindOne "playlist" any_object_id) e).
Proof.
  intros Hdb. unfold add_song_to_playlist, guarded, require_db, bind at 1 2.
  by rewrite Hdb, (find_one_run "playlist" any_object_id e st Hdb eq_refl).
Qed.

End AddSong.

(** C2.  With the store handle set, the handler first reads one playlist
    and then calls [update_one] on the playlist collection with the empty
    update document, before any call that adds the song; and when the client
    rejects the empty update document the answer is the internal error with
    the client's message, nothing more is called, and the store is as it
    was. *)
Theorem empty_update_precedes_lookup (payload : PlaylistAddSong) (e : env)
    (st : store) :
  db e = Some st ->
  (exists rest,
     oplog (add_song_to_playlist payload e).2 =
       (oplog e ++ [OpFindOne "playlist" any_object_id; empty_update_call st] ++ rest)%list /\
     Forall (adds_song (song_id payload)) rest) /\
  (forall msg, empty_update_error e = Some msg ->
     add_song_to_playlist payload e =
       (Err500 msg,
        log (empty_update_call st) (log (OpFindOne "playlist" any_object_id) e)) /\
     db (add_song_to_playlist payload e).2 = Some st).
Proof.
  intros Hdb. rewrite (add_song_run payload e st Hdb).
  set (e1 := log (OpFindOne "playlist" any_object_id) e).
  unfold guarded, bind. fold (empty_update_call st). split.
  - pose proof (update_one_log "playlist" _ UEmpty e1 : oplog (Client.update_one
                  "playlist" _ UEmpty e1).2 = (oplog e1 ++ [empty_update_call st])%list) as H1.
    destruct (Client.update_one "playlist" _ UEmpty e1) as [[[]|msg] e2];
      simpl in H1.
    + destruct (lookup_log payload e2) as (rest & H2 & Hrest).
      destruct (lookup_and_add payload e2) as [[[]|msg] e3]; simpl in H2;
        unfold ret; exists rest; (split; [|done]); simpl; rewrite H2, H1;
        unfold e1; simpl; by rewrite <- !app_assoc.
    + exists []. split; [|done]. simpl. rewrite H1. unfold e1. simpl.
      by rewrite <- !app_assoc.
  - intros msg Hmsg.
    assert (empty_update_error e1 = Some msg) as Hmsg1 by done.
    unfold empty_update_call.
    by rewrite (update_one_rejected _ _ e1 msg Hmsg1).
Qed.

Lemma empty_update_precedes_lookup_witness :
  add_song_to_playlist ask (pymongo (Some demo_store)) =
    (Err500 "update cannot be empty",
     log (empty_update_call demo_store)
       (log (OpFindOne "playlist" any_object_id) (pymongo (Some demo_store)))).
Proof.
  refine (proj1 (proj2 (empty_update_precedes_lookup ask (pymongo (Some demo_store))
                          demo_store _) "update cannot be empty" _));
    reflexivity.
Defined.

(** C1 fails on the code.  With PyMongo as the client, whatever the request
    and the store, the answer is not [{ok: true}] but the internal error
    raised for the empty update of line 102, and the store is as it was; so
    for the sample request, whose playlist is stored under the [ObjectId]
    asked for with no song in it, the song is not added. *)
Theorem add_song_rejected_by_client (payload : PlaylistAddSong) (st : store) :
  (add_song_to_playlist payload (pymongo (Some st))).1 =
    Err500 "update cannot be empty" /\
  store_after (add_song_to_playlist payload (pymongo (Some st))) = Some st /\
  ObjectId (playlist_id ask) = Some (doc_id road_mix) /\
  playlist_songs <$> store_after (add_song_to_playlist ask (pymongo (Some demo_store)))
    = Some [Some (Arr [])].
Proof.
  rewrite (add_song_run payload (pymongo (Some st)) st eq_refl).
  unfold guarded, bind.
  rewrite (update_one_rejected "playlist" _
             (log (OpFindOne "playlist" any_object_id) (pymongo (Some st)))
             "update cannot be empty" eq_refl).
  repeat split; reflexivity.
Qed.

(** Lines 104 to 110 by themselves do what the claim says: run once or
    twice on the sample store, they leave the song once in [song_ids]. *)
Example lookup_and_add_once :
  exists e',
    lookup_and_add ask (pymongo (Some demo_store)) = (Return tt, e') /\
    playlist_songs <$> db e' = Some [Some (Arr [SStr (song_id ask)])].
Proof. eexists. split; reflexivity. Qed.

Example lookup_and_add_twice :
  exists e' e'',
    lookup_and_add ask (pymongo (Some demo_store)) = (Return tt, e') /\
    lookup_and_add ask e' = (Return tt, e'') /\
    playlist_songs <$> db e'' = Some [Some (Arr [SStr (song_id ask)])].
Proof. eexists _, _. repeat split; reflexivity. Qed.

(** With a client that sends the empty update, the whole handler adds the
    song, once. *)
Example add_song_lenient_twice :
  exists e' e'',
    add_song_to_playlist ask (lenient (Some demo_store)) = (Ok200 true, e') /\
    add_song_to_playlist ask e' = (Ok200 true, e'') /\
    playlist_songs <$> db e'' = Some [Some (Arr [SStr (song_id ask)])].
Proof. eexists _, _. repeat split; reflexivity. Qed.

(** A playlist named by a string that is no [ObjectId] is found by its
    [id] field. *)
Example lookup_by_id_field :
  let st := set_coll empty_store "playlist"
              [{| doc_id := SInt 1;
                  doc_fields := <["id" := Sc (SStr "road")]> ∅ |}] in
  exists e',
    lookup_and_add {| playlist_id := "road"; song_id := "s1" |} (pymongo (Some st))
      = (Return tt, e') /\
    playlist_songs <$> db e' = Some [Some (Arr [SStr "s1"])].
Proof. eexists. split; reflexivity. Qed.

(** ** The set update of the store *)

Section AddToSet.
Context (f : string) (v : scalar).

Lemma add_to_set_member (d d' : document) :
  Query.apply_update (UAddToSet f v) d = Some d' ->
  exists l, doc_fields d' !! f = Some (Arr l) /\ v ∈ l.
Proof.
  unfold Query.apply_update.
  destruct (doc_fields d !! f) as [[s|l]|] eqn:E; [done| |].
  - case_bool_decide as Hin; intros [= <-].
    + eauto.
    + simpl. rewrite lookup_insert_eq. eexists. split; [done|]. set_solver.
  - intros [= <-]. simpl. rewrite lookup_insert_eq.
    eexists. split; [done|]. set_solver.
Qed.

(** Adding what is there changes nothing. *)
Lemma add_to_set_again (d d' : document) :
  Query.apply_update (UAddToSet f v) d = Some d' ->
  Query.apply_update (UAddToSet f v) d' = Some d'.
Proof.
  intros H. destruct (add_to_set_member d d' H) as (l & Hl & Hin).
  unfold Query.apply_update. rewrite Hl. by rewrite bool_decide_eq_true_2.
Qed.

(** A set stays a set. *)
Lemma add_to_set_nodup (d d' : document) (l : list scalar) :
  doc_fields d !! f = Some (Arr l) -> NoDup l ->
  Query.apply_update (UAddToSet f v) d = Some d' ->
  exists l', doc_fields d' !! f = Some (Arr l') /\ NoDup l' /\ v ∈ l'.
Proof.
  intros Hl Hnd. unfold Query.apply_update. rewrite Hl.
  case_bool_decide as Hin; intros [= <-].
  - eauto.
  - simpl. rewrite lookup_insert_eq. eexists. split; [done|]. split.
    + apply NoDup_app. repeat split; [done| |apply NoDup_singleton].
      intros x Hx ->%list_elem_of_singleton. done.
    + set_solver.
Qed.

End AddToSet.

(** * Further properties of the handlers *)

(** ** More facts about the string operations *)

Section StringFactsMore.
Import PyStr.

Lemma lower_char_idem (c : ascii) : lower_char (lower_char c) = lower_char c.
Proof. destruct c as [[] [] [] [] [] [] [] []]; reflexivity. Qed.

Lemma lower_idem (s : string) : lower (lower s) = lower s.
Proof.
  induction s as [|c s IH]; [done|]. simpl. by rewrite lower_char_idem, IH.
Qed.

(** Normalising a normalised transcript changes nothing. *)
Lemma normalise_idem (s : string) :
  strip (lower (strip (lower s))) = strip (lower s).
Proof. by rewrite <- strip_lower, lower_idem, strip_idem. Qed.

Lemma prefix_nil_l (s : string) : String.prefix EmptyString s = true.
Proof. by destruct s. Qed.

Lemma prefix_app_weaken (k a b : string) :
  String.prefix k a = true -> String.prefix k (a ++ b) = true.
Proof.
  revert a. induction k as [|c k IH]; intros a; [intros _; apply prefix_nil_l|].
  destruct a as [|x a]; [done|].
  rewrite append_cons, !prefix_cons. intros [-> Hp]%andb_prop. simpl. auto.
Qed.

Lemma contains_app_weaken (k a b : string) :
  contains k a = true -> contains k (a ++ b) = true.
Proof.
  induction a as [|x a IH].
  - intros ->%contains_nil. apply prefix_contains, prefix_nil_l.
  - rewrite append_cons, !contains_cons. intros [Hp|Hc]%orb_prop.
    + rewrite <- append_cons. by rewrite prefix_app_weaken.
    + rewrite IH by done. apply orb_true_r.
Qed.

Lemma lstrip_split (s : string) : exists w, s = w ++ lstrip s.
Proof.
  induction s as [|c s [w IH]]; [by exists EmptyString|]. simpl.
  destruct (isspace c).
  - exists (String c w). by rewrite append_cons, <- IH.
  - by exists EmptyString.
Qed.

Lemma rstrip_split (s : string) : exists w, s = rstrip s ++ w.
Proof.
  induction s as [|c s [w IH]]; [by exists EmptyString|]. simpl.
  destruct (rstrip s) as [|x r] eqn:Hr.
  - destruct (isspace c).
    + by exists (String c s).
    + exists w. rewrite append_cons. by rewrite <- IH.
  - exists w. rewrite append_cons. by rewrite <- IH.
Qed.

(** What occurs in the stripped string occurs in the string. *)
Lemma contains_of_strip (k s : string) :
  contains k (strip s) = true -> contains k s = true.
Proof.
  unfold strip. intros H.
  destruct (rstrip_split (lstrip s)) as [w' Hw'].
  destruct (lstrip_split s) as [w Hw].
  rewrite Hw. apply contains_app_r. rewrite Hw'. by apply contains_app_weaken.
Qed.

End StringFactsMore.

(** ** The intent classifier, continued *)

Section IntentMore.
Import PyStr.

(** A search of [ai_command], run. *)
Lemma search_run (c : string) (f : filter) (n : nat) (act kind : string) (e : env) :
  (let* docs := get_documents c f n in
   let items := normalize_id <$> docs in
   ret {| action := act; items := Some items;
          message := "Found " ++ of_nat (length items) ++ kind |}) e =
    match db e with
    | None => (Raise (gateway_unset e), e)
    | Some st =>
        (if Query.filter_ok f
         then Return (found_reply act kind (normalize_id <$> found st c f n))
         else Raise Client.no_regex,
         log (OpFind c f n) e)
    end.
Proof.
  unfold bind, ret. rewrite get_documents_run.
  destruct (db e); [|done]. by destruct (Query.filter_ok f).
Qed.

Lemma contains_strip_false (k s : string) :
  contains k s = false -> contains k (strip s) = false.
Proof.
  intros H. destruct (contains k (strip s)) eqn:E; [|done].
  by rewrite (contains_of_strip _ _ E) in H.
Qed.

Lemma contains_longer_false (k r s : string) :
  contains k s = false -> contains (k ++ r) s = false.
Proof.
  intros H. destruct (contains (k ++ r) s) eqn:E; [|done].
  by rewrite (contains_app_l _ _ _ E) in H.
Qed.

Lemma found_unfiltered (st : store) (c : string) (n : nat) :
  normalize_id <$> found st c [] n = first_shown st c n.
Proof.
  unfold found, first_shown. do 3 f_equal.
  induction (coll st c) as [|d ds IH]; [done|]. simpl. by rewrite IH.
Qed.

End IntentMore.

(** X1.  A transcript that is not blank and whose lowercase form has none of
    "fm", "open channel", "open radio", "play", "find" and "search" is answered
    with action [none] and the hint, and no call is made on the store. *)
Theorem no_keyword_hint (e : env) (transcript : string) :
  PyStr.all_space transcript = false ->
  PyStr.contains "fm" (PyStr.lower transcript) = false ->
  PyStr.contains "open channel" (PyStr.lower transcript) = false ->
  PyStr.contains "open radio" (PyStr.lower transcript) = false ->
  PyStr.contains "play" (PyStr.lower transcript) = false ->
  PyStr.contains "find" (PyStr.lower transcript) = false ->
  PyStr.contains "search" (PyStr.lower transcript) = false ->
  ai_command transcript e = (Return try_this, e).
Proof.
  intros Hb Hfm Hoc Hor Hp Hf Hs. unfold ai_command.
  assert (PyStr.truthy (PyStr.strip (PyStr.lower transcript)) = true) as ->.
  { destruct (PyStr.strip (PyStr.lower transcript)) eqn:E; [|done].
    apply strip_empty_iff in E. rewrite all_space_lower in E. congruence. }
  assert (PyStr.any_in channel_keywords (PyStr.strip (PyStr.lower transcript)) = false) as ->.
  { unfold PyStr.any_in, channel_keywords. cbn [existsb].
    rewrite (contains_strip_false "play channel")
      by (by apply (contains_longer_false "play" " channel")).
    rewrite (contains_strip_false "play radio")
      by (by apply (contains_longer_false "play" " radio")).
    by rewrite !contains_strip_false. }
  assert (PyStr.any_in song_keywords (PyStr.strip (PyStr.lower transcript)) = false) as ->.
  { unfold PyStr.any_in, song_keywords. cbn [existsb].
    rewrite (contains_strip_false "play song")
      by (by apply (contains_longer_false "play" " song")).
    rewrite (contains_strip_false "find song")
      by (by apply (contains_longer_false "find" " song")).
    by rewrite !contains_strip_false. }
  reflexivity.
Qed.

Lemma no_keyword_hint_witness :
  ai_command " Pause the music " (pymongo None) = (Return try_this, pymongo None).
Proof.
  apply (no_keyword_hint (pymongo None) " Pause the music "); reflexivity.
Defined.

(** X2.  The answer depends on the transcript only through its trimmed,
    lowercased form: letter case and surrounding white space never matter. *)
Theorem ai_command_normalised (e : env) (transcript : string) :
  ai_command (PyStr.strip (PyStr.lower transcript)) e = ai_command transcript e.
Proof. unfold ai_command. by rewrite normalise_idem. Qed.

(** X3.  The list endpoints and the command endpoint only read: whatever
    the request and the answer, the store is the one they started with, and
    at most one call, a read, is made. *)
Theorem reads_leave_store (e : env) :
  (forall query genre limit,
     db (list_songs query genre limit e).2 = db e /\
     exists f, oplog (list_songs query genre limit e).2 = oplog e \/
               oplog (list_songs query genre limit e).2
                 = (oplog e ++ [OpFind "song" f limit])%list) /\
  (forall limit,
     db (list_playlists limit e).2 = db e /\
     exists f, oplog (list_playlists limit e).2 = oplog e \/
               oplog (list_playlists limit e).2
                 = (oplog e ++ [OpFind "playlist" f limit])%list) /\
  (forall genre limit,
     db (list_channels genre limit e).2 = db e /\
     exists f, oplog (list_channels genre limit e).2 = oplog e \/
               oplog (list_channels genre limit e).2
                 = (oplog e ++ [OpFind "channel" f limit])%list) /\
  (forall transcript,
     db (ai_command transcript e).2 = db e /\
     exists c f n, oplog (ai_command transcript e).2 = oplog e \/
                   oplog (ai_command transcript e).2
                     = (oplog e ++ [OpFind c f n])%list).
Proof.
  assert (forall c f limit,
    db (guarded (let* docs := get_documents c f limit in
                 ret (normalize_id <$> docs)) e).2 = db e /\
    exists f', oplog (guarded (let* docs := get_documents c f limit in
                               ret (normalize_id <$> docs)) e).2 = oplog e \/
               oplog (guarded (let* docs := get_documents c f limit in
                               ret (normalize_id <$> docs)) e).2
                 = (oplog e ++ [OpFind c f' limit])%list) as Hlist.
  { intros c f limit. rewrite list_run. destruct (db e) eqn:Hdb.
    - split; [done|]. exists f. by right.
    - split; [done|]. exists f. by left. }
  split; [|split; [|split]].
  - intros q g limit. apply Hlist.
  - intros limit. apply Hlist.
  - intros g limit. apply Hlist.
  - intros tr. unfold ai_command.
    destruct (negb _); [split; [done|]; exists "", [], 0; by left|].
    destruct (PyStr.any_in channel_keywords _).
    { rewrite search_run. destruct (db e) eqn:Hdb.
      - split; [done|]. eexists _, _, _. by right.
      - split; [done|]. exists "", [], 0. by left. }
    destruct (PyStr.any_in song_keywords _).
    { rewrite search_run. destruct (db e) eqn:Hdb.
      - split; [done|]. eexists _, _, _. by right.
      - split; [done|]. exists "", [], 0. by left. }
    split; [done|]. exists "", [], 0. by left.
Qed.

(** X4.  A transcript made of command words only leaves no search phrase,
    and the search is then unfiltered: with the store handle set, the answer
    shows the first 5 channels (channel branch) or the first 10 songs (song
    branch) of the collection. *)
Theorem bare_command_lists_all (e : env) (st : store) (transcript : string) :
  db e = Some st ->
  let t := PyStr.strip (PyStr.lower transcript) in
  (PyStr.any_in channel_keywords t = true -> channel_keyword t = "" ->
   ai_command transcript e =
     (Return (found_reply "play_channel" " channel(s)" (first_shown st "channel" 5)),
      log (OpFind "channel" [] 5) e)) /\
  (PyStr.any_in channel_keywords t = false ->
   PyStr.any_in song_keywords t = true -> song_query t = "" ->
   ai_command transcript e =
     (Return (found_reply "play_song" " song(s)" (first_shown st "song" 10)),
      log (OpFind "song" [] 10) e)).
Proof.
  intros Hdb t. split.
  - intros Hc Hk. unfold ai_command. fold t.
    rewrite (any_in_false_truthy channel_keywords) by done.
    rewrite Hc, Hk, search_run, Hdb. cbn [phrase_filter PyStr.truthy Query.filter_ok forallb].
    by rewrite found_unfiltered.
  - intros Hc Hs Hq. unfold ai_command. fold t.
    rewrite (any_in_false_truthy song_keywords) by done.
    rewrite Hc, Hs, Hq, search_run, Hdb. cbn [phrase_filter PyStr.truthy Query.filter_ok forallb].
    by rewrite found_unfiltered.
Qed.

Lemma bare_command_lists_all_witness :
  ai_command "Open Radio" (pymongo (Some radio_store)) =
    (Return (found_reply "play_channel" " channel(s)" (first_shown radio_store "channel" 5)),
     log (OpFind "channel" [] 5) (pymongo (Some radio_store))) /\
  ai_command "play song" (pymongo (Some demo_store)) =
    (Return (found_reply "play_song" " song(s)" (first_shown demo_store "song" 10)),
     log (OpFind "song" [] 10) (pymongo (Some demo_store))).
Proof.
  split.
  - apply (proj1 (bare_command_lists_all (pymongo (Some radio_store)) radio_store
                    "Open Radio" eq_refl)); reflexivity.
  - apply (proj2 (bare_command_lists_all (pymongo (Some demo_store)) demo_store
                    "play song" eq_refl)); reflexivity.
Defined.

(** ** The list endpoints, continued *)

Section ListMore.

Lemma filter_sublist {A} (p : A -> bool) (l : list A) : List.filter p l `sublist_of` l.
Proof.
  induction l as [|x l IH]; simpl; [constructor|].
  destruct (p x); by constructor.
Qed.

Lemma filter_all {A} (p : A -> bool) (l : list A) :
  Forall (fun x => p x = true) (List.filter p l).
Proof.
  induction l as [|x l IH]; simpl; [constructor|].
  destruct (p x) eqn:E; [by constructor | done].
Qed.

(** What a filtered read yields: records of the collection, in its order,
    [limit] at most, each one matched by the filter. *)
Lemma found_spec (st : store) (c : string) (f : filter) (limit : nat) :
  exists ds,
    found st c f limit = to_dict <$> ds /\
    ds `sublist_of` coll st c /\
    length ds <= limit /\
    Forall (fun d => Query.matches f d = true) ds.
Proof.
  exists (take limit (List.filter (Query.matches f) (coll st c))).
  split; [done|]. split; [|split].
  - etransitivity; [apply sublist_take | apply filter_sublist].
  - rewrite length_take. lia.
  - apply Forall_take, filter_all.
Qed.

Lemma when_given_ok (o : option string) (k : string -> clause) :
  plain_term o = true ->
  (forall s, Regex.plain s = true -> Query.clause_ok (k s) = true) ->
  forallb Query.clause_ok (when_given o k) = true.
Proof.
  intros Ho Hk. destruct o as [s|]; [|done]. simpl in *.
  destruct (PyStr.truthy s); [|done]. simpl. by rewrite Hk.
Qed.

Lemma songs_filter_ok (q g : option string) :
  plain_term q = true -> plain_term g = true ->
  Query.filter_ok (songs_filter q g) = true.
Proof.
  intros Hq Hg. unfold Query.filter_ok, songs_filter. rewrite forallb_app.
  rewrite (when_given_ok q) by (done || apply either_field_ok).
  by rewrite (when_given_ok g) by (done || apply genre_clause_ok).
Qed.

Lemma channels_filter_ok (g : option string) :
  plain_term g = true -> Query.filter_ok (channels_filter g) = true.
Proof.
  intros Hg. unfold Query.filter_ok, channels_filter.
  by rewrite (when_given_ok g) by (done || apply genre_clause_ok).
Qed.

Lemma list_answer (c : string) (f : filter) (limit : nat) (e : env) (st : store) :
  db e = Some st -> Query.filter_ok f = true ->
  exists ds,
    (guarded (let* docs := get_documents c f limit in
              ret (normalize_id <$> docs)) e).1
      = Ok200 (normalize_id <$> (to_dict <$> ds)) /\
    ds `sublist_of` coll st c /\
    length ds <= limit /\
    Forall (fun d => Query.matches f d = true) ds.
Proof.
  intros Hdb Hok. rewrite list_run, Hdb, Hok.
  destruct (found_spec st c f limit) as (ds & -> & H). by exists ds.
Qed.

End ListMore.

(** X5.  With the store handle set, a list request whose terms have no
    pattern metacharacters never fails: the items are records of the
    collection, in the order of the collection, at most [limit] of them,
    each one matched by the filter of the request.  [GET /api/playlists],
    which has no terms, never fails at all. *)
Theorem list_answers_bounded (e : env) (st : store) :
  db e = Some st ->
  (forall query genre limit,
     plain_term query = true -> plain_term genre = true ->
     exists ds,
       (list_songs query genre limit e).1 = Ok200 (normalize_id <$> (to_dict <$> ds)) /\
       ds `sublist_of` coll st "song" /\
       length ds <= limit /\
       Forall (fun d => Query.matches (songs_filter query genre) d = true) ds) /\
  (forall limit,
     exists ds,
       (list_playlists limit e).1 = Ok200 (normalize_id <$> (to_dict <$> ds)) /\
       ds `sublist_of` coll st "playlist" /\
       length ds <= limit) /\
  (forall genre limit,
     plain_term genre = true ->
     exists ds,
       (list_channels genre limit e).1 = Ok200 (normalize_id <$> (to_dict <$> ds)) /\
       ds `sublist_of` coll st "channel" /\
       length ds <= limit /\
       Forall (fun d => Query.matches (channels_filter genre) d = true) ds).
Proof.
  intros Hdb. split; [|split].
  - intros q g limit Hq Hg. by apply list_answer, songs_filter_ok.
  - intros limit.
    destruct (list_answer "playlist" [] limit e st Hdb eq_refl) as (ds & H1 & H2 & H3 & _).
    by exists ds.
  - intros g limit Hg. by apply list_answer, channels_filter_ok.
Qed.

Lemma list_answers_bounded_witness :
  exists ds,
    (list_songs (Some "cold") (Some "rock") 1 (pymongo (Some demo_store))).1
      = Ok200 (normalize_id <$> (to_dict <$> ds)) /\
    ds `sublist_of` coll demo_store "song" /\
    length ds <= 1 /\
    Forall (fun d => Query.matches (songs_filter (Some "cold") (Some "rock")) d = true) ds.
Proof.
  apply (proj1 (list_answers_bounded (pymongo (Some demo_store)) demo_store eq_refl));
    reflexivity.
Defined.

(** X6.  An empty query or genre is no term at all: the answer is the one
    given when the parameter is absent; and without terms nothing is
    filtered, so that with the store handle set the answer shows the first
    [limit] songs of the collection. *)
Theorem empty_term_is_absent (query genre : option string) (limit : nat) (e : env) :
  list_songs (Some "") genre limit e = list_songs None genre limit e /\
  list_songs query (Some "") limit e = list_songs query None limit e /\
  list_channels (Some "") limit e = list_channels None limit e /\
  (forall st, db e = Some st ->
     list_songs (Some "") (Some "") limit e =
       (Ok200 (first_shown st "song" limit), log (OpFind "song" [] limit) e)).
Proof.
  split; [reflexivity|]. split; [reflexivity|]. split; [reflexivity|].
  intros st Hdb. unfold list_songs. rewrite list_run, Hdb.
  cbn [songs_filter when_given PyStr.truthy app Query.filter_ok forallb].
  by rewrite found_unfiltered.
Qed.

Lemma empty_term_is_absent_witness :
  list_songs (Some "") (Some "") 50 (pymongo (Some demo_store)) =
    (Ok200 (first_shown demo_store "song" 50),
     log (OpFind "song" [] 50) (pymongo (Some demo_store))).
Proof.
  apply (proj2 (proj2 (proj2 (empty_term_is_absent None None 50
                                (pymongo (Some demo_store))))) demo_store).
  reflexivity.
Defined.

(** X7.  Identifier normalisation keeps every field other than [_id] and
    [id]; does nothing to a record that is already normalised; and shows
    the store's identifier as [id] even when the record has an [id] field
    of its own. *)
Theorem normalize_id_faithful :
  (forall (d : dict) (k : string),
     k <> "_id" -> k <> "id" -> normalize_id d !! k = d !! k) /\
  (forall d : dict, normalize_id (normalize_id d) = normalize_id d) /\
  (forall (d : document) (own : value),
     doc_fields d !! "id" = Some own ->
     normalize_id (to_dict d) !! "id"
       = Some (Sc (SStr (PyRepr.str_scalar (doc_id d))))).
Proof.
  split; [|split].
  - intros d k H1 H2. unfold normalize_id. destruct (d !! "_id"); [|done].
    by rewrite lookup_delete_ne, lookup_insert_ne.
  - intros d. unfold normalize_id at 1. by rewrite normalize_id_drops.
  - intros d own _. apply normalize_id_stored.
Qed.

Lemma normalize_id_faithful_witness :
  normalize_id (to_dict yellow) !! "title" = to_dict yellow !! "title" /\
  normalize_id (to_dict (named 4 "road")) !! "id" = Some (Sc (SStr "4")).
Proof.
  split.
  - apply (proj1 normalize_id_faithful (to_dict yellow) "title"); discriminate.
  - apply (proj2 (proj2 normalize_id_faithful) (named 4 "road") (Sc (SStr "road"))).
    reflexivity.
Defined.

(** ** The create handlers *)

Section CreateFacts.

Lemma song_dump_no_id (s : Song.t) : Song.model_dump s !! "_id" = None.
Proof. unfold Song.model_dump. by rewrite !lookup_insert_ne, lookup_empty. Qed.

Lemma playlist_dump_no_id (p : Playlist.t) : Playlist.model_dump p !! "_id" = None.
Proof. unfold Playlist.model_dump. by rewrite !lookup_insert_ne, lookup_empty. Qed.

Lemma create_document_unset (c : string) (d : dict) (e : env) :
  db e = None -> create_document c d e = (Raise (gateway_unset e), e).
Proof. intros H. unfold create_document. by rewrite H. Qed.

(** A create handler whose record passed validation, run. *)
Lemma opt_int_encodable (o : option Z) :
  from_option int64 true o = true -> value_encodable (opt_int o) = true.
Proof. by destruct o. Qed.

Lemma playlist_dump_encodable (p : Playlist.t) :
  encodable (Playlist.model_dump p) = true.
Proof.
  unfold Playlist.model_dump.
  do 2 (apply encodable_insert; [done || apply opt_str_encodable|]).
  apply encodable_insert; [|apply encodable_empty].
  simpl. induction (Playlist.song_ids p) as [|x l IH]; [done|]. exact IH.
Qed.

Lemma song_dump_encodable (s : Song.t) :
  from_option int64 true (Song.duration_sec s) = true ->
  encodable (Song.model_dump s) = true.
Proof.
  intros H. unfold Song.model_dump.
  repeat (apply encodable_insert;
          [done || apply opt_str_encodable || by apply opt_int_encodable|]).
  apply encodable_empty.
Qed.

Lemma create_run (c msg : string) (d : dict) (e : env) (st : store) :
  db e = Some st -> d !! "_id" = None -> encodable d = true ->
  guarded (let* new_id := create_document c d in
           ret {| created_id := new_id; created_message := msg |}) e =
    (Ok200 {| created_id := PyRepr.hex_acc 24 (next_oid st) EmptyString;
              created_message := msg |},
     put (inserted st c d) (log (OpInsert c d) e)).
Proof.
  intros Hdb Hid Henc. unfold guarded, bind, ret.
  by rewrite (create_document_run c d e st Hdb Hid Henc).
Qed.

End CreateFacts.

(** X8.  With the store handle unset every endpoint that needs the store
    fails before any call is made: [seed_channels] and
    [add_song_to_playlist], which test the handle themselves, answer the
    internal error "Database not available"; the list and create handlers
    answer the internal error that carries the message of the gateway; and
    [ai_command], which catches nothing, lets the gateway's exception out
    when the transcript asks for a search. *)
Theorem store_unset_fails (e : env) :
  db e = None ->
  (forall query genre limit,
     list_songs query genre limit e = (Err500 (gateway_unset e), e)) /\
  (forall limit, list_playlists limit e = (Err500 (gateway_unset e), e)) /\
  (forall genre limit,
     list_channels genre limit e = (Err500 (gateway_unset e), e)) /\
  seed_channels e = (Err500 "Database not available", e) /\
  (forall payload,
     add_song_to_playlist payload e = (Err500 "Database not available", e)) /\
  (forall payload,
     create_playlist payload e = (Err500 (gateway_unset e), e)) /\
  (forall payload,
     create_channel payload e = (Err500 (gateway_unset e), e)) /\
  (forall describe payload song,
     song_schema payload = inl song ->
     create_song describe payload e = (Err500 (gateway_unset e), e)) /\
  (forall transcript,
     let t := PyStr.strip (PyStr.lower transcript) in
     PyStr.any_in channel_keywords t || PyStr.any_in song_keywords t = true ->
     ai_command transcript e = (Raise (gateway_unset e), e)).
Proof.
  intros Hdb. repeat split.
  - intros q g limit. unfold list_songs. by rewrite list_run, Hdb.
  - intros limit. unfold list_playlists. by rewrite list_run, Hdb.
  - intros g limit. unfold list_channels. by rewrite list_run, Hdb.
  - unfold seed_channels, guarded, bind, require_db. by rewrite Hdb.
  - intros p. unfold add_song_to_playlist, guarded, bind, require_db. by rewrite Hdb.
  - intros p. unfold create_playlist, guarded, bind.
    by rewrite create_document_unset.
  - intros p. unfold create_channel, guarded, bind.
    by rewrite create_document_unset.
  - intros describe p song Hs. unfold create_song, guarded, bind, ret.
    rewrite Hs. by rewrite create_document_unset.
  - intros tr t Hk. unfold ai_command. fold t.
    assert (PyStr.truthy t = true) as ->.
    { apply orb_prop in Hk as [Hk|Hk].
      - by apply (any_in_truthy channel_keywords).
      - by apply (any_in_truthy song_keywords). }
    cbn [negb]. destruct (PyStr.any_in channel_keywords t).
    + by rewrite search_run, Hdb.
    + rewrite orb_false_l in Hk. rewrite Hk. by rewrite search_run, Hdb.
Qed.

Lemma store_unset_fails_witness :
  seed_channels (pymongo None) = (Err500 "Database not available", pymongo None) /\
  list_songs None None 50 (pymongo None)
    = (Err500 (gateway_unset (pymongo None)), pymongo None) /\
  ai_command "play jazz" (pymongo None)
    = (Raise (gateway_unset (pymongo None)), pymongo None).
Proof.
  pose proof (store_unset_fails (pymongo None) eq_refl)
    as (Hlist & _ & _ & Hseed & _ & _ & _ & _ & Hai).
  split; [exact Hseed|]. split; [apply Hlist|]. apply (Hai "play jazz"). reflexivity.
Defined.

(** X9.  [POST /api/songs] validates before it stores: a negative
    [duration_sec] is answered with the internal error that carries the
    validation message, no call is made on the store and nothing is
    stored. *)
Theorem negative_duration_rejected (describe : Z -> string)
    (payload : SongCreate.t) (z : Z) (e : env) :
  SongCreate.duration_sec payload = Some z -> (z < 0)%Z ->
  create_song describe payload e = (Err500 (describe z), e).
Proof.
  intros Hd Hz. unfold create_song, guarded, bind, song_schema.
  rewrite Hd. destruct (0 <=? z)%Z eqn:E; [lia|]. reflexivity.
Qed.

Lemma negative_duration_rejected_witness :
  create_song too_small backwards_song (pymongo (Some demo_store))
  = (Err500 (too_small (-1)), pymongo (Some demo_store)).
Proof.
  apply (negative_duration_rejected too_small backwards_song (-1)%Z
           (pymongo (Some demo_store))); [reflexivity | lia].
Defined.

Section RoundTrip.

Lemma first_shown_all (st : store) (c : string) (n : nat) :
  length (coll st c) <= n ->
  first_shown st c n = normalize_id <$> (to_dict <$> coll st c).
Proof. intros H. unfold first_shown. by rewrite take_ge. Qed.

Lemma coll_inserted (st : store) (c : string) (d : dict) :
  coll (inserted st c d) c = (coll st c ++ [stored st d])%list.
Proof. apply coll_insert. Qed.

Lemma coll_inserted_ne (st : store) (c c' : string) (d : dict) :
  c <> c' -> coll (inserted st c d) c' = coll st c'.
Proof. apply coll_insert_ne. Qed.

(** What the API shows of a record just stored. *)
Lemma shown_stored (st : store) (d : dict) (k : string) :
  d !! "_id" = None -> k <> "_id" -> k <> "id" ->
  normalize_id (to_dict (stored st d)) !! k = d !! k.
Proof.
  intros Hd H1 H2. unfold normalize_id, to_dict.
  rewrite lookup_insert_eq, lookup_delete_ne, !lookup_insert_ne by done.
  simpl. by rewrite lookup_delete_ne.
Qed.

Lemma list_playlists_run (limit : nat) (e : env) (st : store) :
  db e = Some st ->
  list_playlists limit e =
    (Ok200 (first_shown st "playlist" limit), log (OpFind "playlist" [] limit) e).
Proof.
  intros Hdb. unfold list_playlists. rewrite list_run, Hdb.
  cbn [Query.filter_ok forallb]. by rewrite found_unfiltered.
Qed.

End RoundTrip.

(** X10.  A playlist that [POST /api/playlists] creates is stored without
    songs, and [GET /api/playlists] shows it, after the playlists that were
    there, under the identifier that the creation returned, with the name
    and the description of the request. *)
Theorem created_playlist_listed (payload : PlaylistCreate.t) (e : env) (st : store)
    (limit : nat) :
  db e = Some st ->
  length (coll st "playlist") < limit ->
  exists new_id e' shown,
    create_playlist payload e =
      (Ok200 {| created_id := new_id; created_message := "Playlist created" |}, e') /\
    (list_playlists limit e').1 =
      Ok200 (first_shown st "playlist" limit ++ [shown])%list /\
    (list_playlists limit e).1 = Ok200 (first_shown st "playlist" limit) /\
    shown !! "id" = Some (Sc (SStr new_id)) /\
    shown !! "_id" = None /\
    shown !! "name" = Some (Sc (SStr (PlaylistCreate.name payload))) /\
    shown !! "description" = Some (opt_str (PlaylistCreate.description payload)) /\
    shown !! "song_ids" = Some (Arr []).
Proof.
  intros Hdb Hlen. unfold create_playlist.
  set (d := Playlist.model_dump (playlist_schema payload)).
  rewrite (create_run "playlist" _ d e st Hdb (playlist_dump_no_id _)
             (playlist_dump_encodable _)).
  eexists _, _, (normalize_id (to_dict (stored st d))).
  split; [reflexivity|].
  rewrite (list_playlists_run limit
             (put (inserted st "playlist" d) (log (OpInsert "playlist" d) e))
             (inserted st "playlist" d) eq_refl).
  rewrite (list_playlists_run limit e st Hdb).
  split; [|split; [done|]].
  { cbn [fst]. f_equal. rewrite !first_shown_all by (rewrite ?coll_inserted, ?length_app; simpl; lia).
    by rewrite coll_inserted, !fmap_app. }
  destruct (normalize_id_stored (stored st d)) as [Hid Hraw].
  split; [exact Hid|]. split; [exact Hraw|].
  rewrite !shown_stored by (done || apply playlist_dump_no_id).
  unfold d, Playlist.model_dump, playlist_schema. cbn [Playlist.name Playlist.description Playlist.song_ids].
  split; [by rewrite lookup_insert_eq|].
  split; [rewrite lookup_insert_ne by done; by rewrite lookup_insert_eq|].
  rewrite !lookup_insert_ne by done. by rewrite lookup_insert_eq.
Qed.

Lemma created_playlist_listed_witness :
  exists new_id e' shown,
    create_playlist {| PlaylistCreate.name := "Gym"; PlaylistCreate.description := None |}
      (pymongo (Some demo_store)) =
      (Ok200 {| created_id := new_id; created_message := "Playlist created" |}, e') /\
    (list_playlists 50 e').1 =
      Ok200 (first_shown demo_store "playlist" 50 ++ [shown])%list /\
    shown !! "id" = Some (Sc (SStr new_id)) /\
    shown !! "song_ids" = Some (Arr []).
Proof.
  destruct (created_playlist_listed
              {| PlaylistCreate.name := "Gym"; PlaylistCreate.description := None |}
              (pymongo (Some demo_store)) demo_store 50 eq_refl)
    as (new_id & e' & shown & H1 & H2 & _ & H3 & _ & _ & _ & H4).
  { vm_compute. lia. }
  exists new_id, e', shown. auto.
Defined.

(** ** The lookup and the set update of [add_song_to_playlist] *)

Section UpdateFirst.
Context (f : filter) (u : update).

Lemma update_first_no_match (ds : list document) :
  Forall (fun d => Query.matches f d = false) ds ->
  Query.update_first f u ds = Some ds.
Proof.
  induction 1 as [|d ds Hd _ IH]; [done|]. simpl. by rewrite Hd, IH.
Qed.

Lemma update_first_at (pre post : list document) (d d' : document) :
  Forall (fun x => Query.matches f x = false) pre ->
  Query.matches f d = true ->
  Query.apply_update u d = Some d' ->
  Query.update_first f u (pre ++ d :: post)%list = Some (pre ++ d' :: post)%list.
Proof.
  intros Hpre Hd Hu. induction Hpre as [|x pre Hx _ IH]; simpl.
  - by rewrite Hd, Hu.
  - by rewrite Hx, IH.
Qed.

Lemma update_first_fails_at (pre post : list document) (d : document) :
  Forall (fun x => Query.matches f x = false) pre ->
  Query.matches f d = true ->
  Query.apply_update u d = None ->
  Query.update_first f u (pre ++ d :: post)%list = None.
Proof.
  intros Hpre Hd Hu. induction Hpre as [|x pre Hx _ IH]; simpl.
  - by rewrite Hd, Hu.
  - by rewrite Hx, IH.
Qed.

(** An update never creates, removes or renames a record. *)
Lemma update_first_ids (ds ds' : list document) :
  (forall d d', Query.apply_update u d = Some d' -> doc_id d' = doc_id d) ->
  Query.update_first f u ds = Some ds' ->
  doc_id <$> ds' = doc_id <$> ds.
Proof.
  intros Hid. revert ds'. induction ds as [|d ds IH]; intros ds'; simpl.
  - by intros [= <-].
  - destruct (Query.matches f d).
    + destruct (Query.apply_update u d) as [d'|] eqn:E; [|done].
      intros [= <-]. rewrite !fmap_cons. by rewrite (Hid _ _ E).
    + destruct (Query.update_first f u ds) as [r|]; [|done].
      intros [= <-]. rewrite !fmap_cons. by rewrite (IH r).
Qed.

(** The same update once more changes nothing, provided the update does
    not change what the filter looks at and is itself without effect the
    second time. *)
Lemma update_first_again (ds ds' : list document) :
  (forall d d', Query.apply_update u d = Some d' ->
                Query.matches f d' = Query.matches f d) ->
  (forall d d', Query.apply_update u d = Some d' ->
                Query.apply_update u d' = Some d') ->
  Query.update_first f u ds = Some ds' ->
  Query.update_first f u ds' = Some ds'.
Proof.
  intros Hm Hu. revert ds'. induction ds as [|d ds IH]; intros ds'; simpl.
  - by intros [= <-].
  - destruct (Query.matches f d) eqn:Hd.
    + destruct (Query.apply_update u d) as [d'|] eqn:E; [|done].
      intros [= <-]. simpl. by rewrite (Hm _ _ E), Hd, (Hu _ _ E).
    + destruct (Query.update_first f u ds) as [r|]; [|done].
      intros [= <-]. simpl. by rewrite Hd, (IH r).
Qed.

End UpdateFirst.

Section UpdateFirstTwo.
Context (f g : filter) (u : update).

(** An update that fails under [f] still fails after the same update went
    through under [g]. *)
Lemma update_first_still_fails (ds ds' : list document) :
  (forall d d', Query.apply_update u d = Some d' ->
                Query.matches f d' = Query.matches f d) ->
  Query.update_first f u ds = None ->
  Query.update_first g u ds = Some ds' ->
  Query.update_first f u ds' = None.
Proof.
  intros Hm. revert ds'. induction ds as [|d ds IH]; intros ds'; simpl; [done|].
  destruct (Query.matches f d) eqn:Hf.
  - destruct (Query.apply_update u d) as [d'|] eqn:E; [done|]. intros _.
    destruct (Query.matches g d); [done|].
    destruct (Query.update_first g u ds) as [r|]; [|done].
    intros [= <-]. simpl. by rewrite Hf, E.
  - destruct (Query.update_first f u ds) eqn:Ef; [done|]. intros _.
    destruct (Query.matches g d).
    + destruct (Query.apply_update u d) as [d'|] eqn:E; [|done].
      intros [= <-]. simpl. by rewrite (Hm _ _ E), Hf, Ef.
    + destruct (Query.update_first g u ds) as [r|]; [|done].
      intros [= <-]. simpl. by rewrite Hf, (IH r).
Qed.

End UpdateFirstTwo.

Section LookupAndAdd.

Lemma coll_updated (st : store) (c : string) (ds : list document) :
  coll (updated st c ds) c = ds.
Proof.
  unfold updated. case_bool_decide as H; [done|].
  unfold set_coll. apply coll_insert.
Qed.

Lemma coll_updated_ne (st : store) (c c' : string) (ds : list document) :
  c <> c' -> coll (updated st c ds) c' = coll st c'.
Proof.
  intros Hc. unfold updated. case_bool_decide as H; [done|].
  unfold set_coll. by apply coll_insert_ne.
Qed.

Lemma updated_same (st : store) (c : string) : updated st c (coll st c) = st.
Proof. unfold updated. by rewrite bool_decide_eq_true_2. Qed.

Lemma updated_twice (st : store) (c : string) (ds : list document) :
  updated (updated st c ds) c ds = updated st c ds.
Proof.
  unfold updated at 1. by rewrite bool_decide_eq_true_2 by (by rewrite coll_updated).
Qed.

(** A set update through the client, run. *)
Lemma update_one_add_run (c fld : string) (f : filter) (v : scalar) (e : env)
    (st : store) :
  db e = Some st -> Query.filter_ok f = true ->
  exists e',
    Client.update_one c f (UAddToSet fld v) e =
      (match Query.update_first f (UAddToSet fld v) (coll st c) with
       | Some _ => Return tt
       | None => Raise "Cannot apply $addToSet to non-array field"
       end, e') /\
    db e' = Some (match Query.update_first f (UAddToSet fld v) (coll st c) with
                  | Some ds => updated st c ds
                  | None => st
                  end).
Proof.
  intros Hdb Hok. unfold Client.update_one, Client.the_store, bind, raise.
  cbn. rewrite Hdb, Hok.
  destruct (Query.update_first _ _ _) as [ds|]; [|by eexists].
  unfold updated. case_bool_decide; by eexists.
Qed.

Lemma matches_by_object_id (oid : scalar) (d : document) :
  Query.matches (by_object_id oid) d = bool_decide (doc_id d = oid).
Proof.
  unfold Query.matches, Query.holds, by_object_id, to_dict.
  cbn [forallb Query.clause_holds]. rewrite lookup_insert_eq. apply andb_true_r.
Qed.

Lemma matches_by_id_field (pid : string) (d : document) :
  Query.matches (by_id_field pid) d =
    Query.cond_holds (CIs (SStr pid)) (doc_fields d !! "id").
Proof.
  unfold Query.matches, Query.holds, by_id_field.
  cbn [forallb Query.clause_holds]. rewrite to_dict_lookup by done.
  apply andb_true_r.
Qed.

Section OneSong.
Context (song : string).

Lemma add_keeps_id (d d' : document) :
  Query.apply_update (add_to_song_ids song) d = Some d' -> doc_id d' = doc_id d.
Proof.
  unfold add_to_song_ids, Query.apply_update.
  destruct (doc_fields d !! "song_ids") as [[?|l]|]; [done| |by intros [= <-]].
  case_bool_decide; by intros [= <-].
Qed.

Lemma add_keeps_id_field (d d' : document) :
  Query.apply_update (add_to_song_ids song) d = Some d' -> doc_fields d' !! "id" = doc_fields d !! "id".
Proof.
  unfold add_to_song_ids, Query.apply_update.
  destruct (doc_fields d !! "song_ids") as [[?|l]|]; [done| |].
  - case_bool_decide; intros [= <-]; [done|]. simpl. by rewrite lookup_insert_ne.
  - intros [= <-]. simpl. by rewrite lookup_insert_ne.
Qed.

Lemma add_blind_object_id (oid : scalar) (d d' : document) :
  Query.apply_update (add_to_song_ids song) d = Some d' ->
  Query.matches (by_object_id oid) d' = Query.matches (by_object_id oid) d.
Proof. intros H. by rewrite !matches_by_object_id, (add_keeps_id _ _ H). Qed.

Lemma add_blind_id_field (pid : string) (d d' : document) :
  Query.apply_update (add_to_song_ids song) d = Some d' ->
  Query.matches (by_id_field pid) d' = Query.matches (by_id_field pid) d.
Proof. intros H. by rewrite !matches_by_id_field, (add_keeps_id_field _ _ H). Qed.

Lemma add_with_song (d : document) (l : list scalar) :
  song_list d = Some l -> Query.apply_update (add_to_song_ids song) d = Some (with_song d l song).
Proof.
  unfold song_list, add_to_song_ids, Query.apply_update, with_song.
  destruct (doc_fields d !! "song_ids") as [[?|l']|]; [done| |].
  - intros [= ->]. by case_bool_decide.
  - intros [= <-]. rewrite bool_decide_eq_false_2; [done|]. set_solver.
Qed.

Lemma add_no_list (d : document) :
  song_list d = None -> Query.apply_update (add_to_song_ids song) d = None.
Proof.
  unfold song_list, add_to_song_ids, Query.apply_update.
  by destruct (doc_fields d !! "song_ids") as [[?|l']|].
Qed.

End OneSong.

(** Lines 104 to 110, run: they end as [added] says, and leave the store
    with the playlists that [added] gives. *)
Lemma lookup_and_add_run (p : PlaylistAddSong) (e : env) (st : store) :
  db e = Some st ->
  exists e',
    lookup_and_add p e =
      (match added p (coll st "playlist") with
       | Some _ => Return tt
       | None => Raise "Cannot apply $addToSet to non-array field"
       end, e') /\
    db e' = Some (match added p (coll st "playlist") with
                  | Some ds => updated st "playlist" ds
                  | None => st
                  end).
Proof.
  intros Hdb.
  unfold lookup_and_add, added, try_except, add_to_song_ids, by_id_field, by_object_id.
  destruct (ObjectId (playlist_id p)) as [oid|].
  - destruct (update_one_add_run "playlist" "song_ids" [KField "_id" (CIs oid)]
                (SStr (song_id p)) e st Hdb eq_refl) as (e1 & -> & H1).
    destruct (Query.update_first [KField "_id" (CIs oid)] _ _) as [r|] eqn:E1.
    + by exists e1.
    + destruct (update_one_add_run "playlist" "song_ids"
                  [KField "id" (CIs (SStr (playlist_id p)))]
                  (SStr (song_id p)) e1 st H1 eq_refl) as (e2 & -> & H2).
      by exists e2.
  - unfold raise.
    destruct (update_one_add_run "playlist" "song_ids"
                [KField "id" (CIs (SStr (playlist_id p)))]
                (SStr (song_id p)) e st Hdb eq_refl) as (e2 & -> & H2).
    by exists e2.
Qed.

Lemma added_not_found (p : PlaylistAddSong) (ds : list document) :
  Forall (fun d => names_playlist (playlist_id p) d = false) ds ->
  added p ds = Some ds.
Proof.
  intros H. unfold added, names_playlist in *.
  destruct (ObjectId (playlist_id p)) as [oid|];
    by rewrite update_first_no_match.
Qed.

Lemma added_at (p : PlaylistAddSong) (pre post : list document) (d : document)
    (l : list scalar) :
  Forall (fun x => names_playlist (playlist_id p) x = false) pre ->
  names_playlist (playlist_id p) d = true ->
  song_list d = Some l ->
  added p (pre ++ d :: post)%list = Some (pre ++ with_song d l (song_id p) :: post)%list.
Proof.
  intros Hpre Hd Hl. unfold added, names_playlist in *.
  destruct (ObjectId (playlist_id p)) as [oid|];
    by rewrite (update_first_at _ _ pre post d _ Hpre Hd (add_with_song _ d l Hl)).
Qed.

Lemma added_again (p : PlaylistAddSong) (ds ds' : list document) :
  added p ds = Some ds' -> added p ds' = Some ds'.
Proof.
  unfold added.
  pose proof (update_first_again (by_id_field (playlist_id p))
                (add_to_song_ids (song_id p)) ds ds'
                (add_blind_id_field _ _)
                (add_to_set_again "song_ids" (SStr (song_id p)))) as Hfb.
  destruct (ObjectId (playlist_id p)) as [oid|]; [|exact Hfb].
  destruct (Query.update_first (by_object_id oid) _ ds) as [r|] eqn:E1.
  - intros [= <-].
    by rewrite (update_first_again _ _ ds r (add_blind_object_id _ oid)
                  (add_to_set_again "song_ids" (SStr (song_id p))) E1).
  - intros E2.
    rewrite (update_first_still_fails _ _ _ ds ds' (add_blind_object_id _ oid) E1 E2).
    by apply Hfb.
Qed.

Lemma added_ids (p : PlaylistAddSong) (ds ds' : list document) :
  added p ds = Some ds' -> doc_id <$> ds' = doc_id <$> ds.
Proof.
  unfold added.
  pose proof (update_first_ids (by_id_field (playlist_id p))
                (add_to_song_ids (song_id p)) ds ds' (add_keeps_id _)) as Hfb.
  destruct (ObjectId (playlist_id p)) as [oid|]; [|exact Hfb].
  destruct (Query.update_first (by_object_id oid) _ ds) as [r|] eqn:E1; [|exact Hfb].
  intros [= <-].
  exact (update_first_ids (by_object_id oid) (add_to_song_ids (song_id p)) ds r
           (add_keeps_id (song_id p)) E1).
Qed.

End LookupAndAdd.

Lemma with_song_list (d : document) (l : list scalar) (song : string) :
  song_list d = Some l ->
  song_list (with_song d l song) =
    Some (if bool_decide (SStr song ∈ l) then l else (l ++ [SStr song])%list).
Proof.
  intros H. unfold with_song. case_bool_decide; [done|].
  unfold song_list. simpl. by rewrite lookup_insert_eq.
Qed.

(** X11.  Lines 104 to 110 treat a playlist that is not found as no error:
    when no stored playlist is the one the request names (by [_id] for an
    identifier that is an [ObjectId], whatever the [id] fields say; by the
    [id] field otherwise), they end normally and the store is as it was. *)
Theorem unknown_playlist_is_silent (p : PlaylistAddSong) (e : env) (st : store) :
  db e = Some st ->
  Forall (fun d => names_playlist (playlist_id p) d = false) (coll st "playlist") ->
  exists e', lookup_and_add p e = (Return tt, e') /\ db e' = Some st.
Proof.
  intros Hdb Hno. destruct (lookup_and_add_run p e st Hdb) as (e' & -> & He').
  rewrite (added_not_found p _ Hno) in *. rewrite updated_same in He'. by exists e'.
Qed.

Lemma unknown_playlist_is_silent_witness :
  exists e',
    lookup_and_add {| playlist_id := "0123456789abcdef01234567"; song_id := "s1" |}
      (pymongo (Some (set_coll demo_store "playlist"
                        [road_mix; named 1 "0123456789abcdef01234567"])))
      = (Return tt, e') /\
    db e' = Some (set_coll demo_store "playlist"
                    [road_mix; named 1 "0123456789abcdef01234567"]).
Proof.
  apply (unknown_playlist_is_silent
           {| playlist_id := "0123456789abcdef01234567"; song_id := "s1" |}
           (pymongo (Some (set_coll demo_store "playlist"
                             [road_mix; named 1 "0123456789abcdef01234567"])))
           _ eq_refl).
  repeat constructor.
Defined.

(** X12.  Lines 104 to 110 add the song to the first playlist that the
    request names, when its [song_ids] is a list or missing: the song is
    appended unless the list has it, the other fields, the other playlists
    and the other collections stay as they were. *)
Theorem song_added_to_first_named (p : PlaylistAddSong) (e : env) (st : store)
    (pre post : list document) (d : document) (l : list scalar) :
  db e = Some st ->
  coll st "playlist" = (pre ++ d :: post)%list ->
  Forall (fun x => names_playlist (playlist_id p) x = false) pre ->
  names_playlist (playlist_id p) d = true ->
  song_list d = Some l ->
  exists e' st',
    lookup_and_add p e = (Return tt, e') /\
    db e' = Some st' /\
    coll st' "playlist" = (pre ++ with_song d l (song_id p) :: post)%list /\
    song_list (with_song d l (song_id p)) =
      Some (if bool_decide (SStr (song_id p) ∈ l) then l
            else (l ++ [SStr (song_id p)])%list) /\
    (forall k, k <> "song_ids" ->
       doc_fields (with_song d l (song_id p)) !! k = doc_fields d !! k) /\
    (forall c, c <> "playlist" -> coll st' c = coll st c).
Proof.
  intros Hdb Hc Hpre Hd Hl.
  destruct (lookup_and_add_run p e st Hdb) as (e' & -> & He').
  rewrite Hc, (added_at p pre post d l Hpre Hd Hl) in *.
  eexists e', _. split; [done|]. split; [exact He'|].
  split; [apply coll_updated|]. split; [by apply with_song_list|]. split.
  - intros k Hk. unfold with_song. case_bool_decide; [done|].
    simpl. by rewrite lookup_insert_ne.
  - intros c Hne. by apply coll_updated_ne.
Qed.

Lemma song_added_to_first_named_witness :
  exists e' st',
    lookup_and_add ask (pymongo (Some demo_store)) = (Return tt, e') /\
    db e' = Some st' /\
    coll st' "playlist" = [with_song road_mix [] (song_id ask)] /\
    song_list (with_song road_mix [] (song_id ask)) = Some [SStr (song_id ask)].
Proof.
  destruct (song_added_to_first_named ask (pymongo (Some demo_store)) demo_store
              [] [] road_mix [] eq_refl eq_refl (Forall_nil_2 _) eq_refl eq_refl)
    as (e' & st' & H1 & H2 & H3 & H4 & _).
  exists e', st'. auto.
Defined.

(** X13.  Lines 104 to 110 are idempotent: once they have ended normally,
    running them again for the same request ends normally and leaves the
    store as the first run left it, so that a song is never added twice. *)
Theorem lookup_and_add_idempotent (p : PlaylistAddSong) (e e1 : env) (st : store) :
  db e = Some st ->
  lookup_and_add p e = (Return tt, e1) ->
  exists e2, lookup_and_add p e1 = (Return tt, e2) /\ db e2 = db e1.
Proof.
  intros Hdb Hrun. destruct (lookup_and_add_run p e st Hdb) as (e' & Hrun' & He').
  rewrite Hrun in Hrun'.
  destruct (added p (coll st "playlist")) as [ds|] eqn:E; [|by inversion Hrun'].
  injection Hrun' as <-.
  destruct (lookup_and_add_run p e1 _ He') as (e2 & -> & He2).
  rewrite coll_updated, (added_again p _ ds E) in *.
  rewrite updated_twice in He2. exists e2. by rewrite He2, He'.
Qed.

Lemma lookup_and_add_idempotent_witness :
  exists e1 e2,
    lookup_and_add ask (pymongo (Some demo_store)) = (Return tt, e1) /\
    lookup_and_add ask e1 = (Return tt, e2) /\ db e2 = db e1.
Proof.
  eexists _. 
  destruct (lookup_and_add_idempotent ask (pymongo (Some demo_store)) _ demo_store
              eq_refl eq_refl) as (e2 & H1 & H2).
  exists e2. split; [reflexivity|]. split; [exact H1 | exact H2].
Defined.

(** X14.  Whatever the request and however they end, lines 104 to 110 touch
    nothing but the fields of stored playlists: the other collections are as
    they were, and the playlist collection has the same records, under the
    same identifiers, in the same order (no playlist is created, none is
    removed). *)
Theorem lookup_and_add_frame (p : PlaylistAddSong) (e : env) (st : store) :
  db e = Some st ->
  exists st',
    db (lookup_and_add p e).2 = Some st' /\
    (forall c, c <> "playlist" -> coll st' c = coll st c) /\
    doc_id <$> coll st' "playlist" = doc_id <$> coll st "playlist".
Proof.
  intros Hdb. destruct (lookup_and_add_run p e st Hdb) as (e' & -> & He').
  eexists. split; [exact He'|].
  destruct (added p (coll st "playlist")) as [ds|] eqn:E; [|done].
  split.
  - intros c Hc. by apply coll_updated_ne.
  - rewrite coll_updated. by apply (added_ids p).
Qed.

Lemma lookup_and_add_frame_witness :
  exists st',
    db (lookup_and_add ask (pymongo (Some demo_store))).2 = Some st' /\
    coll st' "song" = coll demo_store "song" /\
    doc_id <$> coll st' "playlist" = doc_id <$> coll demo_store "playlist".
Proof.
  destruct (lookup_and_add_frame ask (pymongo (Some demo_store)) demo_store eq_refl)
    as (st' & H1 & H2 & H3).
  exists st'. split; [exact H1|]. split; [by apply H2 | exact H3].
Defined.

(** X15.  The [except] of line 108 also catches the failure of the update
    itself: when the playlist found by [ObjectId] has a [song_ids] that is
    no list, and no playlist has the identifier in its [id] field, lines 104
    to 110 end normally although nothing was added. *)
Theorem write_error_swallowed (p : PlaylistAddSong) (e : env) (st : store)
    (pre post : list document) (d : document) (oid : scalar) :
  db e = Some st ->
  ObjectId (playlist_id p) = Some oid ->
  coll st "playlist" = (pre ++ d :: post)%list ->
  Forall (fun x => doc_id x <> oid) pre ->
  doc_id d = oid ->
  song_list d = None ->
  Forall (fun x => Query.matches (by_id_field (playlist_id p)) x = false)
    (coll st "playlist") ->
  exists e', lookup_and_add p e = (Return tt, e') /\ db e' = Some st.
Proof.
  intros Hdb Hoid Hc Hpre Hd Hl Hno.
  destruct (lookup_and_add_run p e st Hdb) as (e' & -> & He').
  assert (added p (coll st "playlist") = Some (coll st "playlist")) as Ha.
  { unfold added. rewrite Hoid, (update_first_no_match _ _ _ Hno).
    rewrite Hc at 1.
    rewrite (update_first_fails_at (by_object_id oid) _ pre post d); [done| | |].
    - eapply Forall_impl; [exact Hpre|]. intros x Hx.
      rewrite matches_by_object_id. by apply bool_decide_eq_false_2.
    - rewrite matches_by_object_id. by apply bool_decide_eq_true_2.
    - by apply add_no_list. }
  rewrite Ha in *. rewrite updated_same in He'. by exists e'.
Qed.

Lemma write_error_swallowed_witness :
  exists e',
    lookup_and_add ask (pymongo (Some (set_coll demo_store "playlist" [broken_mix])))
      = (Return tt, e') /\
    db e' = Some (set_coll demo_store "playlist" [broken_mix]).
Proof.
  apply (write_error_swallowed ask
           (pymongo (Some (set_coll demo_store "playlist" [broken_mix])))
           (set_coll demo_store "playlist" [broken_mix]) [] [] broken_mix
           (SOid "507f1f77bcf86cd799439011") eq_refl eq_refl eq_refl
           (Forall_nil_2 _) eq_refl eq_refl).
  repeat constructor.
Defined.

(** ** Identifiers of the store *)

Section Hex.

Lemma hex_digit_fine (m : N) :
  (m < 16)%N ->
  is_hex (PyRepr.hex_digit m) = true /\
  PyStr.lower_char (PyRepr.hex_digit m) = PyRepr.hex_digit m.
Proof.
  intros H. destruct m as [|q]; [by split|].
  do 5 (destruct q as [q|q|]; try (by split); try lia).
Qed.

Lemma hex_acc_fine (k : nat) (x : N) (acc : string) :
  all_hex acc = true -> PyStr.lower acc = acc ->
  all_hex (PyRepr.hex_acc k x acc) = true /\
  PyStr.lower (PyRepr.hex_acc k x acc) = PyRepr.hex_acc k x acc /\
  String.length (PyRepr.hex_acc k x acc) = k + String.length acc.
Proof.
  revert x acc. induction k as [|k IH]; intros x acc Ha Hl; [done|].
  simpl PyRepr.hex_acc.
  destruct (hex_digit_fine (x mod 16)%N) as [Hh Hlo]; [by apply N.mod_lt|].
  destruct (IH (x / 16)%N (String (PyRepr.hex_digit (x mod 16)%N) acc))
    as (H1 & H2 & H3).
  - simpl. by rewrite Hh, Ha.
  - simpl. by rewrite Hlo, Hl.
  - split; [done|]. split; [done|]. rewrite H3. simpl. lia.
Qed.

Lemma hex_no_space (c : ascii) : is_hex c = true -> hex_space c = false.
Proof. destruct c as [[] [] [] [] [] [] [] []]; simpl; done. Qed.

(** [bytes.fromhex] reads an even number of hex digits as themselves. *)
Lemma fromhex_digits (n : nat) (s : string) :
  String.length s = 2 * n -> all_hex s = true -> fromhex s = Some (PyStr.lower s).
Proof.
  revert s. induction n as [|n IH]; intros s Hlen Hhex.
  - by destruct s.
  - destruct s as [|c [|c2 r]]; [done|simpl in Hlen; lia|].
    simpl in Hhex. apply andb_prop in Hhex as [Hc [Hc2 Hr]%andb_prop].
    cbn [fromhex PyStr.lower]. rewrite (hex_no_space c Hc), Hc, Hc2.
    rewrite (IH r); [done| |done]. simpl in Hlen. lia.
Qed.

(** The identifier that the store assigns is an [ObjectId] that reads back
    as itself. *)
Lemma ObjectId_next_id (st : store) :
  ObjectId (next_id st) = Some (SOid (next_id st)).
Proof.
  unfold ObjectId, next_id.
  destruct (hex_acc_fine 24 (next_oid st) EmptyString eq_refl eq_refl)
    as (H1 & H2 & H3).
  rewrite H3. cbn [Nat.add String.length Nat.eqb].
  by rewrite (fromhex_digits 12 _ H3 H1), H2.
Qed.

End Hex.

(** X16.  Creation and addition compose: the identifier that
    [POST /api/playlists] returns is an [ObjectId] by which lines 104 to 110
    find the new playlist, provided the store assigned an identifier that no
    stored playlist has; after the addition the new playlist, last of the
    collection, has exactly the song added. *)
Theorem created_playlist_takes_song (payload : PlaylistCreate.t) (song : string)
    (e : env) (st : store) :
  db e = Some st ->
  Forall (fun d => doc_id d <> SOid (next_id st)) (coll st "playlist") ->
  exists e1 e2 st2 made,
    create_playlist payload e =
      (Ok200 {| created_id := next_id st; created_message := "Playlist created" |}, e1) /\
    lookup_and_add {| playlist_id := next_id st; song_id := song |} e1 = (Return tt, e2) /\
    db e2 = Some st2 /\
    coll st2 "playlist" = (coll st "playlist" ++ [made])%list /\
    doc_id made = SOid (next_id st) /\
    song_list made = Some [SStr song].
Proof.
  intros Hdb Hfresh. unfold create_playlist.
  set (d := Playlist.model_dump (playlist_schema payload)).
  rewrite (create_run "playlist" _ d e st Hdb (playlist_dump_no_id _)
             (playlist_dump_encodable _)).
  set (e1 := put _ _). set (p := {| playlist_id := next_id st; song_id := song |}).
  destruct (lookup_and_add_run p e1 (inserted st "playlist" d) eq_refl)
    as (e2 & Hrun & He2).
  assert (song_list (stored st d) = Some []) as Hl.
  { unfold song_list, stored, d, Playlist.model_dump. simpl.
    rewrite lookup_delete_ne by done.
    rewrite !lookup_insert_ne by done. by rewrite lookup_insert_eq. }
  assert (Forall (fun x => names_playlist (playlist_id p) x = false)
            (coll st "playlist")) as Hpre.
  { eapply Forall_impl; [exact Hfresh|]. intros x Hx. unfold names_playlist, p.
    cbn [playlist_id]. rewrite ObjectId_next_id, matches_by_object_id.
    by apply bool_decide_eq_false_2. }
  assert (names_playlist (playlist_id p) (stored st d) = true) as Hd.
  { unfold names_playlist, p. cbn [playlist_id].
    rewrite ObjectId_next_id, matches_by_object_id.
    by apply bool_decide_eq_true_2. }
  rewrite coll_inserted in Hrun, He2.
  rewrite (added_at p (coll st "playlist") [] (stored st d) [] Hpre Hd Hl) in Hrun, He2.
  exists e1, e2. eexists _, (with_song (stored st d) [] song).
  split; [done|]. split; [exact Hrun|]. split; [exact He2|].
  split; [apply coll_updated|]. split; [done|].
  by rewrite (with_song_list _ [] song Hl).
Qed.

Lemma created_playlist_takes_song_witness :
  exists e1 e2 st2 made,
    create_playlist {| PlaylistCreate.name := "Gym"; PlaylistCreate.description := None |}
      (pymongo (Some demo_store)) =
      (Ok200 {| created_id := next_id demo_store;
                created_message := "Playlist created" |}, e1) /\
    lookup_and_add {| playlist_id := next_id demo_store; song_id := "s1" |} e1
      = (Return tt, e2) /\
    db e2 = Some st2 /\
    coll st2 "playlist" = (coll demo_store "playlist" ++ [made])%list /\
    doc_id made = SOid (next_id demo_store) /\
    song_list made = Some [SStr "s1"].
Proof.
  apply (created_playlist_takes_song
           {| PlaylistCreate.name := "Gym"; PlaylistCreate.description := None |}
           "s1" (pymongo (Some demo_store)) demo_store eq_refl).
  repeat constructor. discriminate.
Defined.

(** ** Seeding, continued *)

Section SeedMore.

Lemma channel_dump_no_own_id (ch : Channel.t) : Channel.model_dump ch !! "id" = None.
Proof. unfold Channel.model_dump. by rewrite !lookup_insert_ne, lookup_empty. Qed.

(** A record without identifier fields is shown as itself, with [id]. *)
Lemma shown_stored_fields (st : store) (d : dict) :
  d !! "_id" = None -> d !! "id" = None ->
  delete "id" (normalize_id (to_dict (stored st d))) = d.
Proof.
  intros H1 H2. apply map_eq. intros k.
  destruct (decide (k = "id")) as [->|Hk]; [by rewrite lookup_delete_eq|].
  rewrite lookup_delete_ne by done.
  destruct (decide (k = "_id")) as [->|Hk']; [by rewrite normalize_id_drops|].
  by apply shown_stored.
Qed.

Lemma seed_nonempty_run (e : env) (st : store) :
  db e = Some st -> coll st "channel" <> [] ->
  seed_channels e = (Ok200 "Channels already seeded", log (OpCount "channel") e).
Proof.
  intros Hdb Hne. unfold seed_channels, guarded, bind, require_db.
  rewrite Hdb, (count_documents_run _ _ st Hdb).
  by destruct (coll st "channel").
Qed.

Lemma seed_empty_run (e : env) (st : store) :
  db e = Some st -> coll st "channel" = [] ->
  exists e', seed_channels e = (Ok200 "Seeded default channels", e') /\
             db e' = Some (seeded st).
Proof.
  intros Hdb Hemp. unfold seed_channels, guarded, bind, require_db.
  rewrite Hdb, (count_documents_run _ _ st Hdb), Hemp. cbn [length Nat.ltb Nat.leb].
  unfold defaults. cbn [for_each]. unfold bind.
  set (e0 := log (OpCount "channel") e).
  assert (db e0 = Some st) as H0 by done.
  rewrite (create_document_run _ _ e0 st H0 (model_dump_no_id _)
             (channel_dump_encodable _)).
  set (e1 := put _ _).
  rewrite (create_document_run _ _ e1 _ eq_refl (model_dump_no_id _)
             (channel_dump_encodable _)).
  set (e2 := put _ _).
  rewrite (create_document_run _ _ e2 _ eq_refl (model_dump_no_id _)
             (channel_dump_encodable _)).
  by eexists.
Qed.

Lemma coll_seeded (st : store) :
  coll st "channel" = [] ->
  exists s1 s2 s3,
    coll (seeded st) "channel" =
      zip_with stored [s1; s2; s3] (Channel.model_dump <$> defaults).
Proof.
  intros Hemp. unfold seeded, defaults. cbn [fold_left].
  eexists _, _, _. rewrite !coll_inserted, Hemp. reflexivity.
Qed.

End SeedMore.

(** X17.  Seeding happens once: after [POST /api/channels/seed] has seeded
    an empty channel collection, a second call changes nothing and answers
    "already seeded", and [GET /api/channels] with room for three records
    shows exactly the three default channels, each under an [id]. *)
Theorem seeding_happens_once (e : env) (st : store) (limit : nat) :
  db e = Some st ->
  coll st "channel" = [] ->
  3 <= limit ->
  exists e1 its,
    seed_channels e = (Ok200 "Seeded default channels", e1) /\
    seed_channels e1 = (Ok200 "Channels already seeded", log (OpCount "channel") e1) /\
    (list_channels None limit e1).1 = Ok200 its /\
    delete "id" <$> its = Channel.model_dump <$> defaults /\
    Forall well_identified its.
Proof.
  intros Hdb Hemp Hlim.
  destruct (seed_empty_run e st Hdb Hemp) as (e1 & Hseed & H1).
  destruct (coll_seeded st Hemp) as (s1 & s2 & s3 & Hc).
  exists e1. eexists. split; [exact Hseed|]. split.
  { apply (seed_nonempty_run e1 (seeded st) H1). by rewrite Hc. }
  unfold list_channels. rewrite list_run, H1.
  cbn [channels_filter when_given Query.filter_ok forallb].
  split; [reflexivity|]. split; [|apply found_well_identified].
  rewrite found_unfiltered, first_shown_all by (rewrite Hc; simpl; lia).
  rewrite Hc. unfold defaults. cbn [fmap list_fmap zip_with].
  by rewrite !shown_stored_fields
    by (apply model_dump_no_id || apply channel_dump_no_own_id).
Qed.

Lemma seeding_happens_once_witness :
  exists e1 its,
    seed_channels (pymongo (Some demo_store)) = (Ok200 "Seeded default channels", e1) /\
    seed_channels e1 = (Ok200 "Channels already seeded", log (OpCount "channel") e1) /\
    (list_channels None 50 e1).1 = Ok200 its /\
    delete "id" <$> its = Channel.model_dump <$> defaults.
Proof.
  destruct (seeding_happens_once (pymongo (Some demo_store)) demo_store 50
              eq_refl eq_refl) as (e1 & its & H1 & H2 & H3 & H4 & _).
  { lia. }
  exists e1, its. auto.
Defined.

(** ** Searches, continued *)

Section SearchMore.

Lemma either_field_holds (f1 f2 q : string) (d : document) :
  f1 <> "_id" -> f2 <> "_id" -> Regex.plain q = true ->
  no_array d f1 -> no_array d f2 ->
  Query.clause_holds (either_field f1 f2 q) (to_dict d) =
    either_contains q (str_field d f1) (str_field d f2).
Proof.
  intros H1 H2 Hq Hn1 Hn2. unfold either_field, either_contains.
  cbn [Query.clause_holds existsb fst snd].
  rewrite !regex_plain_holds by done. by rewrite orb_false_r.
Qed.

Lemma phrase_filter_ok (f1 f2 q : string) :
  Regex.plain q = true -> Query.filter_ok (phrase_filter f1 f2 q) = true.
Proof.
  intros Hq. unfold phrase_filter, Query.filter_ok.
  destruct (PyStr.truthy q); [|done]. cbn [forallb]. by rewrite either_field_ok.
Qed.

Lemma phrase_filter_songs (q : string) :
  phrase_filter "title" "artist" q = songs_filter (Some q) None.
Proof.
  unfold phrase_filter, songs_filter, when_given.
  by destruct (PyStr.truthy q).
Qed.

Lemma stored_song_fields (st : store) (song : Song.t) :
  str_field (stored st (Song.model_dump song)) "title" = Some (Song.title song) /\
  str_field (stored st (Song.model_dump song)) "artist" = Some (Song.artist song).
Proof.
  unfold str_field, stored, Song.model_dump. simpl. split.
  - rewrite lookup_delete_ne by done. by rewrite lookup_insert_eq.
  - rewrite lookup_delete_ne by done. rewrite lookup_insert_ne by done.
    by rewrite lookup_insert_eq.
Qed.

Lemma str_field_no_array (d : document) (f s : string) :
  str_field d f = Some s -> no_array d f.
Proof.
  unfold str_field, no_array. intros H l Hl. by rewrite Hl in H.
Qed.

End SearchMore.

(** X18.  A song that passes the schema and whose duration, when given,
    fits the 8 bytes of a stored integer is stored by [POST /api/songs] and
    then found by [GET /api/songs] under every query without pattern
    metacharacters that its title or its artist contains, letter case
    apart; it is shown under the identifier that the creation returned. *)
Theorem created_song_found (describe : Z -> string) (payload : SongCreate.t)
    (song : Song.t) (q : string) (e : env) (st : store) (limit : nat) :
  db e = Some st ->
  song_schema payload = inl song ->
  from_option int64 true (Song.duration_sec song) = true ->
  PyStr.truthy q = true ->
  Regex.plain q = true ->
  ci_contains q (Song.title song) || ci_contains q (Song.artist song) = true ->
  length (coll st "song") < limit ->
  exists e1 its shown,
    create_song describe payload e =
      (Ok200 {| created_id := next_id st; created_message := "Song added" |}, e1) /\
    (list_songs (Some q) None limit e1).1 = Ok200 its /\
    shown ∈ its /\
    shown !! "id" = Some (Sc (SStr (next_id st))) /\
    shown !! "title" = Some (Sc (SStr (Song.title song))) /\
    shown !! "artist" = Some (Sc (SStr (Song.artist song))).
Proof.
  intros Hdb Hs Hfit Ht Hq Hin Hlen.
  set (d := Song.model_dump song). set (new := stored st d).
  destruct (stored_song_fields st song) as [Htitle Hartist]. fold d new in Htitle, Hartist.
  assert (Query.matches (songs_filter (Some q) None) new = true) as Hm.
  { unfold songs_filter, Query.matches, Query.holds.
    rewrite when_given_truthy by done. cbn [when_given app forallb].
    rewrite either_field_holds
      by (done || by eapply str_field_no_array).
    rewrite Htitle, Hartist. unfold either_contains. cbn [from_option].
    by rewrite Hin. }
  exists (put (inserted st "song" d) (log (OpInsert "song" d) e)).
  eexists _, (normalize_id (to_dict new)). split.
  { unfold create_song, guarded, bind, ret. rewrite Hs. cbv beta iota. fold d.
    by rewrite (create_document_run "song" d e st Hdb (song_dump_no_id _)
                  (song_dump_encodable _ Hfit)). }
  unfold list_songs. rewrite list_run. cbn [db put].
  rewrite songs_filter_ok by done. split; [reflexivity|]. split.
  - unfold found. rewrite coll_inserted, List.filter_app. cbn [List.filter].
    fold new. rewrite Hm.
    rewrite take_ge.
    + rewrite !fmap_app. apply elem_of_app. right. cbn. set_solver.
    + rewrite length_app. simpl.
      pose proof (List.filter_length_le (Query.matches (songs_filter (Some q) None))
                    (coll st "song")). lia.
  - destruct (normalize_id_stored new) as [Hid _]. split; [exact Hid|].
    unfold new. rewrite !shown_stored by (done || apply song_dump_no_id).
    unfold d, Song.model_dump. split.
    + by rewrite lookup_insert_eq.
    + rewrite lookup_insert_ne by done. by rewrite lookup_insert_eq.
Qed.

Lemma created_song_found_witness :
  exists e1 its shown,
    create_song too_small
      {| SongCreate.title := "Fix You"; SongCreate.artist := "Coldplay";
         SongCreate.album := None; SongCreate.cover_url := None;
         SongCreate.audio_url := None; SongCreate.duration_sec := Some 295%Z;
         SongCreate.genre := None |} (pymongo (Some demo_store)) =
      (Ok200 {| created_id := next_id demo_store; created_message := "Song added" |}, e1) /\
    (list_songs (Some "FIX") None 50 e1).1 = Ok200 its /\
    shown ∈ its /\
    shown !! "id" = Some (Sc (SStr (next_id demo_store))).
Proof.
  destruct (created_song_found too_small
              {| SongCreate.title := "Fix You"; SongCreate.artist := "Coldplay";
                 SongCreate.album := None; SongCreate.cover_url := None;
                 SongCreate.audio_url := None; SongCreate.duration_sec := Some 295%Z;
                 SongCreate.genre := None |}
              _ "FIX" (pymongo (Some demo_store)) demo_store 50
              eq_refl eq_refl eq_refl eq_refl eq_refl eq_refl)
    as (e1 & its & shown & H1 & H2 & H3 & H4 & _).
  { vm_compute. lia. }
  exists e1, its, shown. auto.
Defined.

(** X19.  The song branch of [POST /api/ai/command] answers with what
    [GET /api/songs] returns for the search phrase as query, no genre and
    limit 10: the same items after the same call on the store, and an
    exception where the list endpoint answers the internal error. *)
Theorem song_branch_is_list_songs (e : env) (transcript : string) :
  let t := PyStr.strip (PyStr.lower transcript) in
  PyStr.any_in channel_keywords t = false ->
  PyStr.any_in song_keywords t = true ->
  ai_command transcript e =
    (match (list_songs (Some (song_query t)) None 10 e).1 with
     | Ok200 its => Return (found_reply "play_song" " song(s)" its)
     | Err500 msg => Raise msg
     end,
     (list_songs (Some (song_query t)) None 10 e).2).
Proof.
  intros t Hc Hs. unfold ai_command. fold t.
  rewrite (any_in_false_truthy song_keywords) by done.
  rewrite Hc, Hs, search_run. unfold list_songs. rewrite list_run.
  rewrite phrase_filter_songs.
  destruct (db e); [|done]. by destruct (Query.filter_ok _).
Qed.

Lemma song_branch_is_list_songs_witness :
  ai_command "Find song YELLOW" (pymongo (Some demo_store)) =
    (Return (found_reply "play_song" " song(s)" [normalize_id (to_dict yellow)]),
     (list_songs (Some "yellow") None 10 (pymongo (Some demo_store))).2).
Proof.
  apply (song_branch_is_list_songs (pymongo (Some demo_store)) "Find song YELLOW");
    reflexivity.
Defined.

(** X20.  In the channel branch a search phrase without pattern
    metacharacters selects the channels whose name or genre contains it,
    letter case apart: with the store handle set, the answer shows the first
    5 of them, in the order of the collection. *)
Theorem channel_search_by_name_or_genre (e : env) (st : store) (transcript : string) :
  db e = Some st ->
  let t := PyStr.strip (PyStr.lower transcript) in
  let k := channel_keyword t in
  PyStr.any_in channel_keywords t = true ->
  PyStr.truthy k = true ->
  Regex.plain k = true ->
  Forall (fun d => no_array d "name" /\ no_array d "genre") (coll st "channel") ->
  ai_command transcript e =
    (Return (found_reply "play_channel" " channel(s)"
               (normalize_id <$>
                  (to_dict <$>
                     take 5 (List.filter
                               (fun d => either_contains k (str_field d "name")
                                           (str_field d "genre"))
                               (coll st "channel"))))),
     log (OpFind "channel" [either_field "name" "genre" k] 5) e).
Proof.
  intros Hdb t k Hc Ht Hk Hflat. unfold ai_command. fold t.
  rewrite (any_in_false_truthy channel_keywords) by done.
  rewrite Hc, search_run, Hdb. fold k.
  rewrite phrase_filter_ok by done. unfold phrase_filter. rewrite Ht.
  unfold found. do 6 f_equal.
  apply List.filter_ext_in. intros d Hd.
  apply list_elem_of_In in Hd. rewrite Forall_forall in Hflat.
  destruct (Hflat d Hd) as [Hn Hg].
  unfold Query.matches, Query.holds. cbn [forallb].
  rewrite either_field_holds by done. apply andb_true_r.
Qed.

Lemma channel_search_by_name_or_genre_witness :
  ai_command "Play channel ROCK" (pymongo (Some radio_store)) =
    (Return (found_reply "play_channel" " channel(s)"
               (normalize_id <$> (to_dict <$> [rock_fm; rock_music_fm]))),
     log (OpFind "channel" [either_field "name" "genre" "rock"] 5)
       (pymongo (Some radio_store))).
Proof.
  refine (channel_search_by_name_or_genre (pymongo (Some radio_store)) radio_store
            "Play channel ROCK" eq_refl eq_refl eq_refl eq_refl _).
  repeat constructor; intros l; vm_compute; discriminate.
Defined.

(** ** Edge inputs of the identifier and of the stored integers *)

(** [bytes.fromhex] skips white space, so 24 characters of which two are
    blanks are an [ObjectId] (of eleven bytes): the playlist is then looked
    up by [_id] only, and a record whose [id] field is that very string is
    not the one named. *)
Example ObjectId_reads_white_space :
  ObjectId "507f1f77bcf86cd7994390  " = Some (SOid "507f1f77bcf86cd7994390") /\
  ObjectId "507F1F77BCF86CD799439011" = Some (SOid "507f1f77bcf86cd799439011") /\
  ObjectId "507f1f77bcf86cd79943901g" = None /\
  ObjectId "507f1f77bcf86cd7994390 1" = None /\
  ObjectId "507f1f77bcf86cd79943901" = None /\
  names_playlist "507f1f77bcf86cd7994390  " (named 1 "507f1f77bcf86cd7994390  ") = false.
Proof. repeat split; vm_compute; reflexivity. Qed.

(** With such an identifier the lookup by [_id] ends normally without a
    match, so the lookup by the [id] field is never made. *)
Example white_space_id_no_fallback :
  let st := set_coll demo_store "playlist" [named 1 "507f1f77bcf86cd7994390  "] in
  let e := pymongo (Some st) in
  let p := {| playlist_id := "507f1f77bcf86cd7994390  "; song_id := "s1" |} in
  (lookup_and_add p e).1 = Return tt /\
  db (lookup_and_add p e).2 = Some st /\
  oplog (lookup_and_add p e).2 =
    [OpUpdate "playlist" (by_object_id (SOid "507f1f77bcf86cd7994390"))
       (add_to_song_ids "s1")].
Proof. vm_compute. repeat split; reflexivity. Qed.

(** A duration of 2^63 passes the schema and is refused by the store's
    encoder: the creation answers the internal error and stores nothing. *)
Example oversized_duration_refused :
  let payload :=
    {| SongCreate.title := "Long"; SongCreate.artist := "Band";
       SongCreate.album := None; SongCreate.cover_url := None;
       SongCreate.audio_url := None;
       SongCreate.duration_sec := Some 9223372036854775808%Z;
       SongCreate.genre := None |} in
  let r := create_song too_small payload (pymongo (Some demo_store)) in
  (exists msg, r.1 = Err500 msg) /\
  db r.2 = Some demo_store /\
  (list_songs None None 50 r.2).1 = Ok200 [normalize_id (to_dict yellow)].
Proof. vm_compute. split; [by eexists|]. split; reflexivity. Qed.
